(* ===== verification/_CoqProject ===== *)
-Q . S2P
Prelude.v
Dom.v
Modal.v
ModalView.v
Images.v
WorkProcess.v
ConstraintValidation.v
ContactForm.v
FormRefinement.v
Navbar.v
Links.v
Footer.v
Document.v
App.v
