(* ===== verification/Prelude.v ===== *)
(** * A verification development of the one-page portfolio (src/app/page.tsx)

    ** The program

    The repository is a Next.js application whose only logic lives in the
    client component [App] of [src/app/page.tsx]; [src/app/layout.tsx] is a
    static root layout.  [App] keeps its state in React [useState] slices,
    each read and written by the section of the page that renders it:
    - the contact form ([formData], [status], [emailJsLoaded]) with its
      handlers [handleChange] and [handleSubmit] (page.tsx 26-33, 72-106)
      and the form markup (1013-1077);
    - the mount effect (60-70), which appends the e-mail client's script to
      [document.body], sets [emailJsLoaded] from the script's [onload] (the
      one place where a slice is written from outside its section), and
      removes the script in its cleanup;
    - the certification lightbox ([modalOpen], [modalImageSrc],
      [modalImageAlt]) with [openModal] and [closeModal] (39-58), the four
      certification cards (800-960) and the modal markup (1087-1108);
    - the work-process tabs ([activeStep]) with the tab strip (398-453) and
      [renderTerminalOutput] (108-170);
    - the mobile menu ([menuOpen]) and the anchors of the navigation bar
      (174-248);
    - the profile pictures of the hero and about sections, whose [onError]
      swaps in an initials placeholder (288-303, 330-345);
    - the static sections: hero buttons and profile links (273-317), the
      skills grid and experience list (457-653), the project cards with
      their GitHub and "Live Demo" links (656-798), the contact details
      (963-1010) and the footer with the current year (1083-1085);
    - [src/app/layout.tsx], the root layout that wraps the page in
      [<html lang="en"><body>] and exports the page's metadata.

    ** How the code is modelled

    React semantics is modelled the way the handlers observe it: a handler
    runs against the state of the render that created it (its closure) and
    does not see its own [setX] calls; it returns the list of its effects,
    and React applies the setter calls in order once the event has been
    dispatched ([commit], below).  Every setter of the source is a value
    setter, so this is exact.  The DOM click dispatch with bubbling is
    modelled in [Dom.v]; the asynchronous e-mail send is a pending promise
    that the environment later fulfils or rejects, which runs the [.then]
    continuations.  JavaScript objects used as dictionaries are stdpp
    [gmap]s (the spread with a computed key is an insert), JavaScript
    numbers that index arrays are [Z] with [undefined] as [None], and a
    thrown exception is [None] of an option result.

    Files, in dependency order:
    - [Prelude.v] (this file): [commit]; the closure [star] of a step
      relation and its invariant lemma [star_inv]; [js_index]; the
      [Component] interface of a slice (initial state and handler) with its
      [ComponentInvariant] class and the generic [c_run_inv] that clients use;
      the [portfolio] hint databases and tactics.
    - [Dom.v]: [bubble_path] and [dispatch_click]; [dispatch_only_on_target]:
      when every handler acts only on its own element, a click runs exactly
      the clicked element's handler; [propagation_path], the same path by
      well-founded recursion (Equations), and the fuel adequacy theorem.
    - [Modal.v] (Module [Modal]): [ModalState], [openModal], [closeModal],
      the modal's DOM ([ModalNode], [modal_parent], [modal_onClick]),
      [modal_click], the [certifications] cards and the thumbnail fallback.
    - [ModalView.v] (Module [ModalView]): [modal_view], what the lightbox
      renders; the equivalence [≡] of states that render alike, with
      [Proper] instances for [modal_click] and [modal_handle].
    - [Images.v] (Module [Images]): [ImgSlot], the profile pictures'
      [profile_onError] as an [Outcome] that may throw after its first
      write, and the two pictures of the page.
    - [WorkProcess.v] (Module [WorkProcess]): [steps], [tab_labels],
      [tab_onClick], [render_tabs], [renderTerminalOutput].
    - [ConstraintValidation.v]: the browser's [required] and [type=email]
      checks (the platform, not the repository), with [split_on]/[join_on];
      the HTML standard's grammar of a valid e-mail address as inductive
      predicates ([dns_label], [domain_name], [email_address]) and the
      proof that [valid_email] decides it.
    - [ContactForm.v] (Module [ContactForm]): [FormState], [handleChange],
      [handleSubmit], [onFulfilled], [onRejected], [settle], the submit gate
      [submit_click], the status rendering, and [form_handle].
    - [FormRefinement.v] (Modules [FormSpec], [FormRefinement]): the
      specification's four-field submission machine [spec_step], the
      abstraction [abs] and the refinement theorems.
    - [Navbar.v] (Module [Navbar]): [menuOpen], the link lists,
      [page_sections] and the browser's fragment navigation.
    - [Links.v] (Module [Links]): every other anchor ([Anchor]), the hero's
      controls, the [projects] cards, [app_routes], the browser's URL
      resolution [resolve] and anchor activation [follow].
    - [Footer.v] (Module [Footer]): [decimal] and [js_int_to_string]
      ([String(n)] for integers), [footer_text] for the year the clock
      gives, and the reader [parse_int] that inverts the printer.
    - [Document.v] (Module [Document]): [metadata] and [RootLayout] of
      layout.tsx, the page's element tree [page_main] (sections and their
      text, services, skills, experience, contact details, form labels and
      controls) and what it says about ids.
    - [App.v] (Module [App]): [AppState], the mount effect ([mount_effect],
      [cleanup_effect]), the script's [script_onload] (which also fires for
      a script the cleanup removed), and the step relation [app_step] of the
      whole page, which admits React StrictMode's mount, cleanup and
      second mount.

    ** Theorems

    - Functional behaviour of every handler on every branch: submit without
      the client (error, no network call), submit with it (one request with
      the fixed identifiers), fulfilled and rejected sends, blocked submits,
      modal clicks on each element, tab clicks, anchor clicks.
    - Invariants of the slices, proved once per slice against the
      [ComponentInvariant] interface, and of the page by rule induction over
      [star app_step]: the form object keeps its four keys, at most one
      send is in flight and exactly while [status] is ["sending"], every
      request is well formed, the lightbox is empty or shows a card's image,
      [activeStep] stays in 1..7 so rendering never throws, the client's
      script is in the body exactly once while mounted and its cleanup
      never throws.
    - Refinement: [FormRefinement.form_refines] is a simulation diagram from
      the code's form to the specification's machine, and
      [form_trace_refines] lifts it to every sequence of events.
    - Behaviours the specification does not state: a second [handleSubmit]
      while sending sends twice, an edit typed during a send is lost, the
      status never returns to its initial value, a malformed address is
      refused by the browser, a failure shows "Good Thankyou", the mobile
      menu stays open after navigation, no anchor leads to the work-process
      section.
    - Consistency of the duplicated literals: card thumbnails against modal
      payloads, mobile against desktop links, links against section ids.
    - Liveness of the page ([App]): the disabled submit button is
      re-enabled by the settlement of its send, whatever the answer.
    - Validation: [FormRefinement.form_valid_iff] characterises the submits
      the browser lets through by the standard's e-mail grammar.
    - View equivalence
      ([ModalView.modal_view_respected]), the profile pictures' fallback and
      its unguarded error path ([Images]), the outbound links ([Links]: dead
      "Live Demo" links, [noopener] on every new-tab link, the inert "View
      Projects" button), both menus against the page's sections ([Navbar]),
      and the well-formedness of the document
      (distinct ids, labels that name controls, anchors that find their
      section: [Document]).

    ** Bounds and fuel

    The only fuel is that of [Dom.bubble_path], the number of elements on a
    propagation path.  The modal's tree has depth 3 and [Modal.modal_fuel]
    is 4, which covers the whole path: [Dom.bubble_path_adequate] shows that
    any fuel above the depth of the clicked element gives the complete
    path of the fuel-free [propagation_path], and [dispatch_only_on_target]
    shows that for handlers like [closeModal] the result is the same for
    every fuel of at least 1, so the choice cannot hide a handler.  The
    decimal printer of [Footer] recurses on the value of the number
    (well-founded, no fuel).  [activeStep] is a [Z]
    because a JavaScript number can leave 1..7; [render_fails_iff] states
    what happens there.

    ** Not modelled, and the plan for later sittings

    Not modelled: [globals.css] and the [className]s (presentation only);
    the console arguments after the message; the browser's value
    sanitisation of [type=email] controls (it strips line breaks and
    surrounding spaces before validation); the e-mail service itself, which
    is only the environment settling the pending send.  A real unmount and
    remount keeps the slices' state in [app_step] (StrictMode keeps it; a
    remount after navigation would start fresh), so the page's invariants
    are proved for more behaviours than the page has.  Next: extend the
    view equivalence to the whole page, and model the value sanitisation. *)

From stdpp Require Export base gmap strings list.
From Stdlib Require Export ZArith Lia.

Declare Scope ui_scope.
Delimit Scope ui_scope with ui.
Open Scope string_scope.

Create HintDb portfolio discriminated.
Create Rewrite HintDb portfolio_rw.

(** ** Committing the updates a handler emitted (React's batched setters) *)

Section Commit.
Context {S U : Type} (apply : S -> U -> S).

Definition commit (s : S) (us : list U) : S := foldl apply s us.

Lemma commit_nil s : commit s [] = s.
Proof. reflexivity. Qed.

Lemma commit_cons s u us : commit s (u :: us) = commit (apply s u) us.
Proof. reflexivity. Qed.

Lemma commit_app s us1 us2 : commit s (us1 ++ us2) = commit (commit s us1) us2.
Proof. unfold commit. by rewrite foldl_app. Qed.

(** A property every update preserves holds after a commit. *)
Lemma commit_preserves (P : S -> Prop) s us :
  (forall s u, P s -> P (apply s u)) -> P s -> P (commit s us).
Proof. intros Hu. revert s. induction us as [|u us IH]; intros s Hs; [done|]. apply IH, Hu, Hs. Qed.
End Commit.

#[export] Hint Rewrite @commit_nil @commit_cons @commit_app : portfolio_rw.

(** ** Reflexive-transitive closure of a step relation *)

Section Star.
Context {A : Type} (R : A -> A -> Prop).

Inductive star : A -> A -> Prop :=
| star_refl a : star a a
| star_step a b c : R a b -> star b c -> star a c.

Lemma star_one a b : R a b -> star a b.
Proof. eauto using star. Qed.

Lemma star_trans a b c : star a b -> star b c -> star a c.
Proof. induction 1; eauto using star. Qed.

Lemma star_right a b c : star a b -> R b c -> star a c.
Proof. eauto using star_trans, star_one. Qed.

(** Invariants of the step relation hold in every reachable state. *)
Lemma star_inv (P : A -> Prop) a b :
  (forall x y, P x -> R x y -> P y) -> P a -> star a b -> P b.
Proof. intros Hstep Ha Hs. induction Hs; eauto. Qed.
End Star.

#[export] Hint Constructors star : portfolio.
#[export] Hint Resolve star_one star_trans star_right : portfolio.

(** ** JavaScript array indexing: [a[i]] is [undefined] outside the array *)

Definition js_index {A} (l : list A) (i : Z) : option A :=
  if (i <? 0)%Z then None else l !! Z.to_nat i.

Lemma js_index_Some {A} (l : list A) (i : Z) :
  (0 <= i < Z.of_nat (length l))%Z -> is_Some (js_index l i).
Proof.
  intros Hi. unfold js_index. destruct (Z.ltb_spec i 0); [lia|].
  apply lookup_lt_is_Some_2. lia.
Qed.

Lemma js_index_None {A} (l : list A) (i : Z) :
  (i < 0 \/ Z.of_nat (length l) <= i)%Z -> js_index l i = None.
Proof.
  intros Hi. unfold js_index. destruct (Z.ltb_spec i 0); [done|].
  apply lookup_ge_None_2. lia.
Qed.

Lemma js_index_nat {A} (l : list A) (n : nat) : js_index l (Z.of_nat n) = l !! n.
Proof. unfold js_index. destruct (Z.ltb_spec (Z.of_nat n) 0); [lia|]. by rewrite Nat2Z.id. Qed.

(** [forallb] of a boolean predicate is [Forall] of its [= true]. *)
Lemma forallb_Forall {A} (f : A -> bool) (l : list A) : forallb f l = true <-> Forall (fun x => f x = true) l.
Proof. rewrite forallb_forall, List.Forall_forall. done. Qed.

(** ** The interface of a UI slice: its initial state and its handler

    A [Component] is a [useState] slice of [App]: the value it starts with
    and the state change one event causes.  A [ComponentInvariant] is what
    the slice promises to the page: a property of the initial state kept by
    every event.  Clients reason against this interface only. *)

Class Component (S E : Type) := {
  c_init : S;
  c_handle : S -> E -> S
}.

Definition c_run {S E} `{Component S E} (es : list E) : S := foldl c_handle c_init es.

Class ComponentInvariant (S E : Type) `{Component S E} (inv : S -> Prop) := {
  cinv_init : inv c_init;
  cinv_handle : forall s e, inv s -> inv (c_handle s e)
}.

Lemma c_run_snoc {S E} `{Component S E} es e : c_run (es ++ [e]) = c_handle (c_run es) e.
Proof. unfold c_run. by rewrite foldl_app. Qed.

(** Every state a slice reaches from its initial state by any sequence of
    events satisfies the slice's invariant. *)
Lemma c_run_inv {S E} `{Component S E} (inv : S -> Prop) `{!ComponentInvariant S E inv} es :
  inv (c_run es).
Proof.
  induction es as [|e es IH] using rev_ind; [apply cinv_init|].
  rewrite c_run_snoc. by apply cinv_handle.
Qed.

(** ** Tactics *)

(** Membership of a literal in a list literal. *)
Ltac elem_lit := repeat (first [apply list_elem_of_here | apply list_elem_of_further]).

(** Split [Forall P l] over a list literal (or a term that computes to
    one) into one goal per element. *)
Ltac forall_lit := repeat apply List.Forall_cons; try apply List.Forall_nil.

(** Unfold a commit of a concrete list of updates. *)
Ltac simpl_commit := autorewrite with portfolio_rw; cbn.
