(* ===== verification/Dom.v ===== *)
(** * Click dispatch in the DOM, with bubbling

    React calls the [onClick] handler of the clicked element and then those
    of its ancestors, innermost first, each with [e.target] the clicked
    element and [e.currentTarget] the element whose handler runs.  The page
    never calls [stopPropagation].  The tree is given by a [parent] function;
    [depth] is a rank that decreases towards the root, so that the parent
    chain is acyclic.  The fuel of [bubble_path] bounds the depth of the
    tree; for handlers that act only on their own element any fuel of at
    least 1 gives the same result ([dispatch_only_on_target]).
    [propagation_path] is the reference definition of the path, by
    well-founded recursion on [depth] (Equations, with the inspect pattern
    keeping [parent n = Some p] for the termination obligation);
    [bubble_path_adequate] shows that fuel above the depth of the clicked
    element computes exactly that path, so the fuel never cuts it short. *)

From S2P Require Import Prelude.
From Equations Require Import Equations.

Record MouseEvent (N : Type) := {
  target : N;
  currentTarget : N
}.
Arguments target {N} _.
Arguments currentTarget {N} _.

Section Dispatch.
Context {N U : Type} `{EqDecision N}.
Context (parent : N -> option N).

(** The propagation path of a click on [n]: [n] and its ancestors. *)
Fixpoint bubble_path (fuel : nat) (n : N) : list N :=
  match fuel with
  | 0 => []
  | S f => n :: match parent n with Some p => bubble_path f p | None => [] end
  end.

(** The updates emitted by all the handlers a click on [t] runs, in order. *)
Definition dispatch_click (handler : N -> option (MouseEvent N -> list U))
    (fuel : nat) (t : N) : list U :=
  concat (map (fun n => match handler n with
                        | Some h => h {| target := t; currentTarget := n |}
                        | None => []
                        end) (bubble_path fuel t)).

(** A handler that, like [closeModal], acts only when the element it is
    attached to is the one that was clicked. *)
Definition only_on_target (h : MouseEvent N -> list U) : Prop :=
  forall e, target e <> currentTarget e -> h e = [].

Context (depth : N -> nat).
Hypothesis parent_depth : forall n p, parent n = Some p -> depth p < depth n.

(** The propagation path without fuel: the parent chain terminates
    because [depth] decreases along it. *)
Definition inspect {A} (a : A) : {b | a = b} := exist _ a eq_refl.

#[tactic="idtac"] Equations? propagation_path (n : N) : list N by wf (depth n) lt :=
  propagation_path n with inspect (parent n) := {
    | exist _ (Some p) Hp => n :: propagation_path p;
    | exist _ None _ => [n] }.
Proof. apply parent_depth. assumption. Qed.

(** Termination of the dispatch.  With more fuel than the depth of
    the clicked element, the fuelled [bubble_path] that [dispatch_click]
    walks is the whole propagation path, as the well-founded
    [propagation_path] computes it. *)
Lemma bubble_path_adequate fuel n :
  depth n < fuel -> bubble_path fuel n = propagation_path n.
Proof.
  revert fuel. funelim (propagation_path n); intros [|f] Hf; try lia; cbn [bubble_path].
  - match goal with E : parent _ = Some _ |- _ => rewrite E; pose proof (parent_depth _ _ E) end.
    f_equal. match goal with IH : forall fuel, _ -> bubble_path fuel _ = _ |- _ => apply IH end. lia.
  - match goal with E : parent _ = None |- _ => by rewrite E end.
Qed.

Lemma bubble_path_depth fuel n m : m ∈ bubble_path fuel n -> depth m <= depth n.
Proof.
  revert n. induction fuel as [|f IH]; intros n Hm; simpl in Hm; [set_solver|].
  apply elem_of_cons in Hm as [-> | Hm]; [lia|].
  destruct (parent n) as [p|] eqn:Hp; [|set_solver].
  specialize (IH p Hm). specialize (parent_depth n p Hp). lia.
Qed.

Lemma bubble_path_ancestors fuel n :
  forall m, m ∈ drop 1 (bubble_path fuel n) -> depth m < depth n.
Proof.
  intros m Hm. destruct fuel as [|f]; simpl in Hm; [set_solver|].
  destruct (parent n) as [p|] eqn:Hp; [|set_solver].
  apply bubble_path_depth in Hm. specialize (parent_depth n p Hp). lia.
Qed.

(** When every handler acts only on its own element, a click runs exactly
    the clicked element's handler, with [target = currentTarget]. *)
Lemma dispatch_only_on_target handler fuel t :
  (forall n h, handler n = Some h -> only_on_target h) ->
  dispatch_click handler (S fuel) t =
    match handler t with
    | Some h => h {| target := t; currentTarget := t |}
    | None => []
    end.
Proof.
  intros Hon. unfold dispatch_click. cbn [bubble_path map concat].
  assert (Hanc := bubble_path_ancestors (S fuel) t). cbn [bubble_path drop] in Hanc.
  destruct (parent t) as [p|]; [|by rewrite app_nil_r].
  match goal with |- (_ ++ concat ?l)%list = _ => assert (Hnil : concat l = []) end.
  { apply concat_nil_Forall, Forall_forall. intros us Hus.
    apply list_elem_of_In, in_map_iff in Hus as (m & <- & Hm).
    destruct (handler m) as [h|] eqn:Hh; [|done].
    apply (Hon m h Hh). simpl. intros Heq. subst m.
    specialize (Hanc t (proj2 (list_elem_of_In _ _) Hm)). lia. }
  by rewrite Hnil, app_nil_r.
Qed.
End Dispatch.
