(* ===== verification/Modal.v ===== *)
(** * The certification lightbox (page.tsx 39-58, 800-960, 1087-1108)

    [ModalState] is the three [useState] slices [modalOpen], [modalImageSrc]
    and [modalImageAlt]; [openModal] and [closeModal] emit the setter calls
    of the source in their order.  The modal's DOM ([ModalNode]) is the
    backdrop [div] with [onClick={closeModal}], the inner box, the image and
    the close [button] with [onClick={closeModal}]; a click bubbles through
    [Dom.dispatch_click].  The four certification cards each call
    [openModal] with their image and caption; their thumbnails fall back to
    a placeholder on an image error.  A card click is allowed in any state,
    although the open modal's fixed backdrop covers the cards: the model has
    more behaviours than the page, so its invariants hold a fortiori. *)

From S2P Require Import Prelude Dom.

Module Modal.

Record ModalState := {
  modalOpen : bool;
  modalImageSrc : string;
  modalImageAlt : string
}.

(** [useState(false)], [useState("")], [useState("")] *)
Definition modal_init : ModalState :=
  {| modalOpen := false; modalImageSrc := ""; modalImageAlt := "" |}.

(** The setter calls of the three slices. *)
Inductive ModalUpdate :=
| setModalOpen (b : bool)
| setModalImageSrc (s : string)
| setModalImageAlt (s : string).

Definition modal_apply (m : ModalState) (u : ModalUpdate) : ModalState :=
  match u with
  | setModalOpen b => {| modalOpen := b; modalImageSrc := modalImageSrc m; modalImageAlt := modalImageAlt m |}
  | setModalImageSrc s => {| modalOpen := modalOpen m; modalImageSrc := s; modalImageAlt := modalImageAlt m |}
  | setModalImageAlt s => {| modalOpen := modalOpen m; modalImageSrc := modalImageSrc m; modalImageAlt := s |}
  end.

Notation "m <<- us" := (commit modal_apply m us) (at level 50, left associativity) : ui_scope.
Local Open Scope ui_scope.

Definition openModal (src alt : string) : list ModalUpdate :=
  [setModalImageSrc src; setModalImageAlt alt; setModalOpen true].

(** The elements a click in the open modal can land on; [PageMain] is the
    [<main>] element the modal is rendered in. *)
Inductive ModalNode := PageMain | Backdrop | ModalBox | ModalImage | CloseButton.

#[export] Instance ModalNode_eq_dec : EqDecision ModalNode.
Proof. solve_decision. Defined.

Definition closeModal (e : MouseEvent ModalNode) : list ModalUpdate :=
  if decide (target e = currentTarget e)
  then [setModalOpen false; setModalImageSrc ""; setModalImageAlt ""]
  else [].

Definition modal_parent (n : ModalNode) : option ModalNode :=
  match n with
  | PageMain => None
  | Backdrop => Some PageMain
  | ModalBox => Some Backdrop
  | ModalImage | CloseButton => Some ModalBox
  end.

Definition modal_depth (n : ModalNode) : nat :=
  match n with
  | PageMain => 0
  | Backdrop => 1
  | ModalBox => 2
  | ModalImage | CloseButton => 3
  end.

(** The [onClick] props of the modal markup. *)
Definition modal_onClick (n : ModalNode) : option (MouseEvent ModalNode -> list ModalUpdate) :=
  match n with
  | Backdrop | CloseButton => Some closeModal
  | _ => None
  end.

(** The tree has depth 3: four nodes on the longest propagation path. *)
Definition modal_fuel : nat := 4.

(** [{modalOpen && (...)}]: the modal's elements exist only while it is
    open; a click on them commits the updates of every handler on the
    propagation path. *)
Definition modal_click (m : ModalState) (t : ModalNode) : ModalState :=
  if modalOpen m
  then m <<- dispatch_click modal_parent modal_onClick modal_fuel t
  else m.

(** ** The certification cards *)

Record CertCard := {
  card_modal_src : string;   (** first argument of [openModal] *)
  card_modal_alt : string;   (** second argument of [openModal] *)
  card_img_src : string;     (** [src] of the thumbnail *)
  card_img_alt : string;     (** [alt] of the thumbnail *)
  card_fallback : string;    (** text of the placeholder [div] *)
  card_title : string;
  card_issuer : string;
  card_issued : string
}.

Definition certifications : list CertCard := [
  {| card_modal_src := "/aws-cloud-practitioner.jpg";
     card_modal_alt := "IBM Certified Cloud Practitioner";
     card_img_src := "/aws-cloud-practitioner.jpg";
     card_img_alt := "IBM Certified Cloud Practitioner";
     card_fallback := "IBM Certificate";
     card_title := "IBM Certified Cloud Practitioner";
     card_issuer := "Amazon Web Services";
     card_issued := "Issued: November 2024" |};
  {| card_modal_src := "/moringa-software-engineering.jpeg";
     card_modal_alt := "Software Engineering Certificate - Moringa School";
     card_img_src := "/moringa-software-engineering.jpeg";
     card_img_alt := "Software Engineering Certificate - Moringa School";
     card_fallback := "Moringa Certificate";
     card_title := "Software Engineering Certificate";
     card_issuer := "Moringa School";
     card_issued := "Issued: August 2024" |};
  {| card_modal_src := "/kenya-music-festival-appreciation.jpeg";
     card_modal_alt := "Certificate of Appreciation - Kenya Music Festival";
     card_img_src := "/kenya-music-festival-appreciation.jpeg";
     card_img_alt := "Certificate of Appreciation - Kenya Music Festival";
     card_fallback := "Appreciation Certificate";
     card_title := "Certificate of Appreciation";
     card_issuer := "Ministry of Education - Kenya";
     card_issued := "97th Kenya Music Festival (National Level)" |};
  {| card_modal_src := "/kenya-music-festival-participation.jpeg";
     card_modal_alt := "Certificate of Participation - Kenya Music Festival Conference";
     card_img_src := "/kenya-music-festival-participation.jpeg";
     card_img_alt := "Certificate of Participation - Kenya Music Festival Conference";
     card_fallback := "Participation Certificate";
     card_title := "Certificate of Participation";
     card_issuer := "Kenya Music Festival";
     card_issued := "2nd International Conference" |}
].

(** [onClick={() => openModal(src, alt)}] of a card. *)
Definition card_onClick (c : CertCard) : list ModalUpdate :=
  openModal (card_modal_src c) (card_modal_alt c).

(** The events of the slice: a click on the [i]-th card, or a click on an
    element of the modal. *)
Inductive ModalEvent :=
| ClickCard (i : nat)
| ClickModal (t : ModalNode).

Definition modal_handle (m : ModalState) (ev : ModalEvent) : ModalState :=
  match ev with
  | ClickCard i =>
      match certifications !! i with
      | Some c => m <<- card_onClick c
      | None => m
      end
  | ClickModal t => modal_click m t
  end.

#[export] Instance modal_component : Component ModalState ModalEvent :=
  {| c_init := modal_init; c_handle := modal_handle |}.

(** What the page promises about the lightbox: closed, it holds no image;
    open, it shows the image and caption of one of the cards. *)
Definition modal_inv (m : ModalState) : Prop :=
  if modalOpen m
  then exists c, c ∈ certifications /\ modalImageSrc m = card_modal_src c /\ modalImageAlt m = card_modal_alt c
  else modalImageSrc m = "" /\ modalImageAlt m = "".

(** ** Thumbnail fallback (the [onError] of a card's [img]) *)

(** The inline [display] styles of the thumbnail and of its placeholder
    sibling; [""] is the stylesheet's default. *)
Record ThumbStyle := {
  img_display : string;
  fallback_display : string
}.

Definition thumb_init : ThumbStyle := {| img_display := ""; fallback_display := "none" |}.

(** [img.style.display = "none"; if (img.nextElementSibling) ... = "flex"] *)
Definition thumb_onError (has_sibling : bool) (t : ThumbStyle) : ThumbStyle :=
  {| img_display := "none";
     fallback_display := if has_sibling then "flex" else fallback_display t |}.

Definition shown (display : string) : bool := bool_decide (display <> "none").

(** ** Lemmas *)

Lemma closeModal_only_on_target : only_on_target closeModal.
Proof. intros e Hne. unfold closeModal. by rewrite decide_False. Qed.

Lemma modal_onClick_only_on_target n h :
  modal_onClick n = Some h -> only_on_target h.
Proof. destruct n; simpl; intros; simplify_eq; apply closeModal_only_on_target. Qed.

Lemma modal_parent_depth n p : modal_parent n = Some p -> modal_depth p < modal_depth n.
Proof. destruct n; simpl; intros; simplify_eq; simpl; lia. Qed.

(** Every click in the modal runs only the handler of the clicked element. *)
Lemma modal_dispatch t :
  dispatch_click modal_parent modal_onClick modal_fuel t =
    match modal_onClick t with
    | Some h => h {| target := t; currentTarget := t |}
    | None => []
    end.
Proof.
  apply (dispatch_only_on_target modal_parent modal_depth modal_parent_depth).
  apply modal_onClick_only_on_target.
Qed.

Lemma commit_openModal m src alt :
  m <<- openModal src alt = {| modalOpen := true; modalImageSrc := src; modalImageAlt := alt |}.
Proof. reflexivity. Qed.

(** C7: on the open modal, a click closes it and clears the image
    and caption exactly when it lands on the backdrop or on the close
    button; a click on the image or on the box around it changes nothing. *)
Theorem modal_click_spec m t :
  modalOpen m = true ->
  modal_click m t = if bool_decide (t = Backdrop \/ t = CloseButton) then modal_init else m.
Proof.
  intros Hopen. unfold modal_click. rewrite Hopen, modal_dispatch.
  destruct m as [o s a]; simpl in Hopen; subst o.
  destruct t; unfold closeModal; simpl; rewrite ?decide_True by done; done.
Qed.

Lemma modal_click_spec_witness :
  modalOpen {| modalOpen := true; modalImageSrc := "/a.jpg"; modalImageAlt := "A" |} = true /\
  modal_click {| modalOpen := true; modalImageSrc := "/a.jpg"; modalImageAlt := "A" |} ModalImage =
    {| modalOpen := true; modalImageSrc := "/a.jpg"; modalImageAlt := "A" |}.
Proof.
  split; [reflexivity|].
  rewrite (modal_click_spec _ ModalImage) by reflexivity. reflexivity.
Defined.

(** An open modal is either closed and emptied by a click, or unchanged. *)
Lemma modal_click_open m t :
  modalOpen m = true -> modal_click m t = modal_init \/ modal_click m t = m.
Proof.
  intros Hopen. unfold modal_click. rewrite Hopen, modal_dispatch.
  destruct m as [o s a]; simpl in Hopen; subst o.
  destruct t; unfold closeModal; simpl; rewrite ?decide_True by done; auto.
Qed.

(** C20: Opening the modal on a card and clicking the backdrop restores the
    initial, empty lightbox, whatever state it was in before. *)
Theorem open_then_backdrop m src alt :
  modal_click (m <<- openModal src alt) Backdrop = modal_init.
Proof. rewrite commit_openModal. reflexivity. Qed.

Lemma modal_inv_init : modal_inv modal_init.
Proof. by split. Qed.

Lemma modal_inv_handle m ev : modal_inv m -> modal_inv (modal_handle m ev).
Proof.
  intros Hm. destruct ev as [i|t]; simpl.
  - destruct (certifications !! i) as [c|] eqn:Hc; [|done].
    simpl.
    exists c. split; [|done]. by eapply list_elem_of_lookup_2.
  - destruct (modalOpen m) eqn:Ho; [|by unfold modal_click; rewrite Ho].
    destruct (modal_click_open m t Ho) as [->| ->]; [apply modal_inv_init | done].
Qed.

#[export] Instance modal_inv_component : ComponentInvariant ModalState ModalEvent modal_inv.
Proof. split; [apply modal_inv_init | apply modal_inv_handle]. Qed.

(** C10: In every state the lightbox reaches, it is either closed and empty, or
    open on the image and caption of one of the four certification cards. *)
Theorem modal_reachable es : modal_inv (c_run (S := ModalState) es).
Proof. apply c_run_inv. apply _. Qed.

(** Each card opens the lightbox on the image its thumbnail shows, with the
    thumbnail's caption. *)
Theorem cards_open_their_thumbnail :
  Forall (fun c => card_modal_src c = card_img_src c /\ card_modal_alt c = card_img_alt c) certifications.
Proof. repeat constructor. Qed.

(** After any number of image errors a card shows exactly one of its
    thumbnail and its placeholder. *)
Theorem thumb_exactly_one n :
  xorb (shown (img_display (Nat.iter n (thumb_onError true) thumb_init)))
       (shown (fallback_display (Nat.iter n (thumb_onError true) thumb_init))) = true.
Proof. destruct n; reflexivity. Qed.

End Modal.
