(* ===== verification/ModalView.v ===== *)
(** * What the lightbox shows, and the states a visitor cannot tell apart

    The modal markup (page.tsx 1087-1108) renders nothing while [modalOpen]
    is false and the image [modalImageSrc] with the caption
    [modalImageAlt] while it is true.  [modal_view] is that rendering;
    two lightbox states are equivalent ([≡], stdpp's [Equiv]) when they
    render alike, which ignores the image and caption of a closed modal.
    The handlers respect the equivalence ([Proper] instances), so setoid
    rewriting carries it through any sequence of clicks. *)

From S2P Require Import Prelude Dom Modal.
From Stdlib Require Import Morphisms.
Import Modal.

Module ModalView.

(** [{modalOpen && (... <img src={modalImageSrc} alt={modalImageAlt} /> ...)}] *)
Definition modal_view (m : ModalState) : option (string * string) :=
  if modalOpen m then Some (modalImageSrc m, modalImageAlt m) else None.

#[export] Instance modal_equiv : Equiv ModalState := fun m1 m2 => modal_view m1 = modal_view m2.

#[export] Instance modal_equivalence : Equivalence (≡@{ModalState}).
Proof. split; repeat intro; unfold equiv, modal_equiv in *; congruence. Qed.

(** ** Lemmas *)

(** Two equivalent states are equal once the modal is open. *)
Lemma modal_equiv_open m1 m2 : m1 ≡ m2 -> modalOpen m1 = true -> m1 = m2.
Proof.
  unfold equiv, modal_equiv, modal_view. destruct m1 as [[] s1 a1], m2 as [[] s2 a2]; simpl; congruence.
Qed.

Lemma modal_equiv_closed m1 m2 : m1 ≡ m2 -> modalOpen m1 = false -> modalOpen m2 = false.
Proof.
  unfold equiv, modal_equiv, modal_view. destruct m1 as [[] s1 a1], m2 as [[] s2 a2]; simpl; congruence.
Qed.

#[export] Instance modal_click_proper : Proper ((≡) ==> (=) ==> (≡)) modal_click.
Proof.
  intros m1 m2 Hm t ? <-. destruct (modalOpen m1) eqn:Ho; [by rewrite (modal_equiv_open m1 m2)|].
  unfold modal_click. by rewrite Ho, (modal_equiv_closed m1 m2).
Qed.

#[export] Instance modal_handle_proper : Proper ((≡) ==> (=) ==> (≡)) modal_handle.
Proof.
  intros m1 m2 Hm ev ? <-. destruct ev as [i|t]; simpl; [|by rewrite Hm].
  destruct (certifications !! i); [done | exact Hm].
Qed.

(** ** Theorems *)

(** C23: the lightbox's handlers depend only on what it shows: two states
    that render alike (for instance, closed with different stale images)
    render alike after any sequence of card and modal clicks. *)
Theorem modal_view_respected es m1 m2 :
  m1 ≡ m2 -> foldl modal_handle m1 es ≡ foldl modal_handle m2 es.
Proof.
  revert m1 m2. induction es as [|ev es IH]; intros m1 m2 Hm; simpl; [done|].
  apply IH. by rewrite Hm.
Qed.

Lemma modal_view_respected_witness :
  foldl modal_handle {| modalOpen := false; modalImageSrc := "/old.jpg"; modalImageAlt := "old" |} [ClickCard 1]
    ≡ foldl modal_handle modal_init [ClickCard 1].
Proof. apply modal_view_respected. reflexivity. Defined.

(** Termination of the lightbox's click dispatch.  For every element
    of the modal, the fuelled bubbling path [modal_click] walks is the
    complete propagation path up to [<main>], as the fuel-free,
    well-founded [propagation_path] computes it: the fuel never cuts
    dispatch short. *)
Lemma modal_dispatch_complete t :
  bubble_path modal_parent modal_fuel t = propagation_path modal_parent modal_depth modal_parent_depth t.
Proof. apply bubble_path_adequate. destruct t; cbv; lia. Qed.

End ModalView.
