(* ===== verification/Images.v ===== *)
(** * Image fallbacks of the profile pictures (page.tsx 288-303, 330-345)

    The hero and the about section each show [/profile.jpg] in a round
    frame, followed by a sibling [div] with the initials "KT" and the inline
    style [display: 'none'].  The picture's [onError] hides the image and
    shows its next element sibling:
    [img.style.display = 'none';
     (img.nextElementSibling as HTMLElement).style.display = 'flex'].
    Unlike the certificate thumbnails ([Modal.thumb_onError]), there is no
    [if (img.nextElementSibling)] guard: with no sibling the second
    statement throws a [TypeError] after the first has run.  [ImgSlot] holds
    the inline [display] of the image and of its next sibling, if any; a
    handler's [Outcome] is the DOM it leaves, with the error it threw. *)

From S2P Require Import Prelude Modal.
Import Modal.

Module Images.

(** The inline [display] of an [img] and of its next element sibling. *)
Record ImgSlot := {
  img_style : string;
  next_sibling : option string
}.

(** An event handler returns, or throws after the writes it made. *)
Inductive Outcome (A : Type) :=
| Returned (a : A)
| Threw (a : A) (error : string).
Arguments Returned {A} a.
Arguments Threw {A} a error.

Definition outcome_state {A} (o : Outcome A) : A :=
  match o with Returned a => a | Threw a _ => a end.

(** [onError={(e) => { const img = e.target as HTMLImageElement;
      img.style.display = 'none';
      (img.nextElementSibling as HTMLElement).style.display = 'flex'; }}] *)
Definition profile_onError (sl : ImgSlot) : Outcome ImgSlot :=
  let sl1 := {| img_style := "none"; next_sibling := next_sibling sl |} in
  match next_sibling sl1 with
  | Some _ => Returned {| img_style := img_style sl1; next_sibling := Some "flex" |}
  | None => Threw sl1 "TypeError: Cannot read properties of null (reading 'style')"
  end.

(** A profile picture of the page: the [img] attributes, the initials of
    its placeholder and the slot as rendered (the placeholder [div] right
    after the image, [style={{display: 'none'}}]). *)
Record ProfilePicture := {
  pic_src : string;
  pic_alt : string;
  placeholder_text : string;
  pic_slot : ImgSlot
}.

Definition profile_slot_init : ImgSlot := {| img_style := ""; next_sibling := Some "none" |}.

Definition hero_picture : ProfilePicture :=
  {| pic_src := "/profile.jpg"; pic_alt := "Ken Tuei"; placeholder_text := "KT"; pic_slot := profile_slot_init |}.

Definition about_picture : ProfilePicture :=
  {| pic_src := "/profile.jpg"; pic_alt := "Ken Tuei"; placeholder_text := "KT"; pic_slot := profile_slot_init |}.

Definition profile_pictures : list ProfilePicture := [hero_picture; about_picture].

(** What the frame shows. *)
Inductive FrameView := ShowsPhoto | ShowsPlaceholder | ShowsNothing | ShowsBoth.

Definition frame_view (sl : ImgSlot) : FrameView :=
  match shown (img_style sl), default false (shown <$> next_sibling sl) with
  | true, false => ShowsPhoto
  | false, true => ShowsPlaceholder
  | false, false => ShowsNothing
  | true, true => ShowsBoth
  end.

(** A card thumbnail as a slot: the placeholder always follows it. *)
Definition slot_of_thumb (t : ThumbStyle) : ImgSlot :=
  {| img_style := img_display t; next_sibling := Some (fallback_display t) |}.

(** ** Theorems *)

(** C24: both profile pictures show the photo until an image error; after
    any number of errors the handler has returned without throwing and the
    frame shows exactly the "KT" placeholder. *)
Theorem profile_fallback_shows_initials n :
  Forall (fun p =>
    frame_view (pic_slot p) = ShowsPhoto /\
    exists sl, Nat.iter (S n) (fun sl => outcome_state (profile_onError sl)) (pic_slot p) = sl /\
               profile_onError (pic_slot p) = Returned sl /\
               frame_view sl = ShowsPlaceholder /\ placeholder_text p = "KT") profile_pictures.
Proof.
  assert (Hit : forall m, Nat.iter (S m) (fun sl => outcome_state (profile_onError sl)) profile_slot_init
                          = {| img_style := "none"; next_sibling := Some "flex" |}).
  { induction m as [|m IH]; [reflexivity|]. rewrite Nat.iter_succ, IH. reflexivity. }
  repeat constructor; eexists; (split; [apply Hit|]); split_and!; reflexivity.
Qed.

(** ** Lemmas *)

Lemma profile_onError_sibling sl d :
  next_sibling sl = Some d ->
  profile_onError sl = Returned {| img_style := "none"; next_sibling := Some "flex" |}.
Proof. intros Hd. unfold profile_onError. simpl. by rewrite Hd. Qed.

(** C25: the profile pictures' handler has no null check: on an image with
    no next sibling it hides the image and then throws, leaving the frame
    empty, where the certificate thumbnails' guarded handler returns. *)
Theorem profile_onError_unguarded sl :
  next_sibling sl = None ->
  profile_onError sl = Threw {| img_style := "none"; next_sibling := None |}
                             "TypeError: Cannot read properties of null (reading 'style')" /\
  frame_view (outcome_state (profile_onError sl)) = ShowsNothing /\
  fallback_display (thumb_onError false {| img_display := img_style sl; fallback_display := "none" |}) = "none".
Proof. intros Hn. unfold profile_onError. simpl. rewrite Hn. split_and!; reflexivity. Qed.

Lemma profile_onError_unguarded_witness :
  profile_onError {| img_style := ""; next_sibling := None |} =
    Threw {| img_style := "none"; next_sibling := None |} "TypeError: Cannot read properties of null (reading 'style')".
Proof. apply (profile_onError_unguarded {| img_style := ""; next_sibling := None |}). reflexivity. Defined.

(** Where the placeholder exists, the profile pictures' handler does
    what the certificate thumbnails' guarded handler does. *)
Theorem profile_onError_agrees_with_thumbnail t :
  profile_onError (slot_of_thumb t) = Returned (slot_of_thumb (thumb_onError true t)).
Proof. by rewrite (profile_onError_sibling _ (fallback_display t)). Qed.

End Images.
