(* ===== verification/WorkProcess.v ===== *)
(** * The work-process tabs (page.tsx 34, 108-170, 398-453)

    [activeStep] is a JavaScript number, [useState(1)], kept here as a [Z].
    The tab strip maps seven labels to [div]s whose [onClick] is
    [setActiveStep(index + 1)] and which are highlighted when
    [activeStep === index + 1].  [renderTerminalOutput] reads
    [steps[activeStep - 1]] and renders ["$ " + step.title] followed by the
    step's output lines; outside the array the element is [undefined] and
    reading [.title] throws, which [renderTerminalOutput] returns as [None]. *)

From S2P Require Import Prelude.

Module WorkProcess.

Record Step := {
  title : string;
  output : list string
}.

(** [const steps = [...]] of [renderTerminalOutput]. *)
Definition steps : list Step := [
  {| title := "Initial Consultation";
     output := ["👋 Welcome! Let's discuss your project goals, requirements, and vision.";
                "✔️ Understanding your needs and expectations."] |};
  {| title := "Prototyping & Design";
     output := ["📝 Creating wireframes and design prototypes.";
                "🎨 Collaborating on UI/UX decisions."] |};
  {| title := "Development";
     output := ["💻 Coding the application using chosen technologies.";
                "🔄 Regular updates and feedback loops."] |};
  {| title := "Testing & Quality Assurance";
     output := ["🧪 Running tests to ensure reliability and performance.";
                "✅ Fixing bugs and polishing features."] |};
  {| title := "Deployment";
     output := ["🚀 Deploying the application to production.";
                "🌐 Setting up hosting and domain."] |};
  {| title := "Review & Finalization";
     output := ["🔍 Final review and walkthrough.";
                "📦 Delivering the finished product."] |};
  {| title := "Ongoing Support";
     output := ["🔧 Providing maintenance and support.";
                "📈 Helping with future updates and improvements."] |}
].

(** The array literal the tab strip maps over. *)
Definition tab_labels : list string := [
  "Initial Consultation";
  "Prototyping & Design";
  "Development";
  "Testing & Quality Assurance";
  "Deployment";
  "Review & Finalization";
  "Ongoing Support"
].

(** [useState(1)] *)
Definition activeStep_init : Z := 1.

(** [onClick={() => setActiveStep(index + 1)}] of the tab at [index]; the
    strip renders one tab per label, so a click on another index has no
    element to land on. *)
Definition tab_onClick (activeStep : Z) (index : nat) : Z :=
  if decide (index < length tab_labels) then Z.of_nat index + 1 else activeStep.

(** The tab strip: the number shown, the label and whether the tab is
    highlighted ([activeStep === index + 1]). *)
Definition render_tabs (activeStep : Z) : list (Z * string * bool) :=
  imap (fun index label =>
          (Z.of_nat index + 1, label, bool_decide (activeStep = Z.of_nat index + 1))%Z)
       tab_labels.

(** [const step = steps[activeStep - 1]] and the rendered lines; [None] is
    the [TypeError] of reading [.title] of [undefined]. *)
Definition renderTerminalOutput (activeStep : Z) : option (list string) :=
  match js_index steps (activeStep - 1) with
  | Some step => Some (("$ " ++ title step) :: output step)
  | None => None
  end.

#[export] Instance work_component : Component Z nat :=
  {| c_init := activeStep_init; c_handle := tab_onClick |}.

(** The slice's invariant: [activeStep] names one of the seven steps. *)
Definition step_inv (activeStep : Z) : Prop := (1 <= activeStep <= Z.of_nat (length steps))%Z.

(** ** Lemmas *)

Lemma length_steps : length steps = 7.
Proof. reflexivity. Qed.

Lemma length_tab_labels : length tab_labels = 7.
Proof. reflexivity. Qed.

Lemma renderTerminalOutput_lookup (n : nat) :
  renderTerminalOutput (Z.of_nat n + 1) =
    (fun step => ("$ " ++ title step) :: output step) <$> steps !! n.
Proof.
  unfold renderTerminalOutput. replace (Z.of_nat n + 1 - 1)%Z with (Z.of_nat n) by lia.
  rewrite js_index_nat. by destruct (steps !! n).
Qed.

Lemma step_inv_index s : step_inv s -> exists n, n < 7 /\ s = (Z.of_nat n + 1)%Z.
Proof.
  unfold step_inv. rewrite length_steps. intros Hs.
  exists (Z.to_nat (s - 1)). lia.
Qed.

(** The tab strip and the step list are two literals of the source; the
    label of every tab is the title of the step it selects. *)
Lemma tab_labels_titles : tab_labels = map title steps.
Proof. reflexivity. Qed.

Lemma render_in_range a : (1 <= a <= 7)%Z -> is_Some (renderTerminalOutput a).
Proof.
  intros Ha. unfold renderTerminalOutput.
  destruct (js_index_Some steps (a - 1)) as [st ->]; [rewrite length_steps; lia | by eexists].
Qed.

(** C8: a click on the tab at [index] (one of the seven rendered tabs)
    makes the terminal render exactly ["$ " + label] of that tab followed by
    that step's output lines, whatever step was active before. *)
Theorem select_tab_renders s index :
  index < length tab_labels ->
  exists step, steps !! index = Some step /\ tab_labels !! index = Some (title step) /\
    renderTerminalOutput (tab_onClick s index) = Some (("$ " ++ title step) :: output step).
Proof.
  intros Hi. unfold tab_onClick. rewrite decide_True by done.
  rewrite renderTerminalOutput_lookup, tab_labels_titles, list_lookup_fmap.
  rewrite length_tab_labels in Hi.
  destruct (lookup_lt_is_Some_2 steps index) as [step Hstep]; [by rewrite length_steps|].
  rewrite Hstep. by exists step.
Qed.

Lemma select_tab_renders_witness :
  3 < length tab_labels /\
  renderTerminalOutput (tab_onClick 1 3) =
    Some ["$ Testing & Quality Assurance";
          "🧪 Running tests to ensure reliability and performance.";
          "✅ Fixing bugs and polishing features."].
Proof.
  split; [simpl; lia|].
  destruct (select_tab_renders 1 3) as (step & Hs & _ & ->); [simpl; lia|].
  simpl in Hs. by injection Hs as <-.
Defined.

Lemma step_inv_handle s i : step_inv s -> step_inv (tab_onClick s i).
Proof.
  unfold step_inv, tab_onClick. rewrite length_steps, length_tab_labels.
  case_decide; lia.
Qed.

#[export] Instance step_inv_component : ComponentInvariant Z nat step_inv.
Proof. split; [cbv; split; discriminate | apply step_inv_handle]. Qed.

(** C15: Outside [1..7], [steps[activeStep - 1]] is [undefined] and rendering
    throws; inside, it renders. *)
Theorem render_fails_iff a :
  renderTerminalOutput a = None <-> (a < 1 \/ 7 < a)%Z.
Proof.
  split.
  - destruct (decide (1 <= a <= 7)%Z) as [Ha|Ha]; [|lia].
    intros Hn. destruct (render_in_range a Ha) as [? Hs]. congruence.
  - intros Ha. unfold renderTerminalOutput. rewrite js_index_None; [done|]. rewrite length_steps. lia.
Qed.

(** C11: In every reachable state the terminal renders, exactly one tab is
    highlighted, and that tab shows the number [activeStep] and the title of
    the step the terminal shows. *)
Theorem reachable_tabs_agree es :
  exists step,
    renderTerminalOutput (c_run (S := Z) es) = Some (("$ " ++ title step) :: output step) /\
    filter (fun t : Z * string * bool => t.2 = true) (render_tabs (c_run (S := Z) es)) =
      [(c_run (S := Z) es, title step, true)].
Proof.
  destruct (step_inv_index _ (c_run_inv step_inv es)) as (n & Hn & ->).
  do 7 (destruct n as [|n]; [eexists; split; reflexivity|]). lia.
Qed.

End WorkProcess.
