(* ===== verification/ConstraintValidation.v ===== *)
(** * The browser's constraint validation of the contact form

    This file models the platform, not the repository: before a [submit]
    event reaches [onSubmit={handleSubmit}], the browser checks every input
    of the form.  An input with the [required] attribute and an empty value
    is [valueMissing]; an [<input type="email">] with a non-empty value that
    is not a valid e-mail address is [typeMismatch].  A valid e-mail address
    is the HTML standard's

    [1*( atext / "." ) "@" label *( "." label )], a label being one to 63
    letters, digits or hyphens that starts and ends with a letter or digit.

    [split_on] cuts a string at a separator; [join_on] puts it back. *)

From S2P Require Import Prelude.
From Stdlib Require Import Ascii.

Module ConstraintValidation.

Definition is_alnum (c : ascii) : bool :=
  let n := nat_of_ascii c in
  (Nat.leb 48 n && Nat.leb n 57) || (Nat.leb 65 n && Nat.leb n 90) || (Nat.leb 97 n && Nat.leb n 122).

(** [atext] without the letters and digits, and the dot of the local part. *)
Definition local_specials : list ascii := String.list_ascii_of_string ".!#$%&'*+/=?^_`{|}~-".

Definition is_local_char (c : ascii) : bool := is_alnum c || bool_decide (c ∈ local_specials).

Definition is_label_char (c : ascii) : bool := is_alnum c || bool_decide (c = "-"%char).

Fixpoint split_on (sep : ascii) (l : list ascii) : list (list ascii) :=
  match l with
  | [] => [[]]
  | c :: r =>
      if decide (c = sep) then [] :: split_on sep r
      else match split_on sep r with
           | p :: ps => (c :: p) :: ps
           | [] => [[c]]
           end
  end.

Fixpoint join_on (sep : ascii) (ps : list (list ascii)) : list ascii :=
  match ps with
  | [] => []
  | [p] => p
  | p :: ps => (p ++ sep :: join_on sep ps)%list
  end.

Definition valid_label (l : list ascii) : bool :=
  Nat.leb 1 (length l) && Nat.leb (length l) 63 &&
  match l with [] => false | c :: _ => is_alnum c end &&
  match last l with None => false | Some c => is_alnum c end &&
  forallb is_label_char l.

Definition valid_email (s : string) : bool :=
  match split_on "@"%char (String.list_ascii_of_string s) with
  | [local; domain] =>
      negb (bool_decide (local = [])) && forallb is_local_char local &&
      forallb valid_label (split_on "."%char domain)
  | _ => false
  end.

(** The attributes of a form control that validation reads. *)
Record FormInput := {
  input_id : string;
  input_name : string;
  input_type : string;
  input_required : bool
}.

(** [valueMissing] and [typeMismatch] are both false. *)
Definition input_valid (inp : FormInput) (value : string) : bool :=
  negb (input_required inp && bool_decide (value = "")) &&
  (if bool_decide (input_type inp = "email") then bool_decide (value = "") || valid_email value else true).

(** ** The grammar of a valid e-mail address, as the standard states it

    [label = let-dig [ [ ldh-str ] let-dig ]], at most 63 characters;
    [domain = label *( "." label )]; an address is a non-empty local part
    of [atext] and dots, an ["@"], and a domain. *)

Inductive dns_label : list ascii -> Prop :=
| label_single c : is_alnum c = true -> dns_label [c]
| label_multi c mid d :
    is_alnum c = true -> is_alnum d = true -> Forall (fun x => is_label_char x = true) mid ->
    length mid <= 61 -> dns_label ((c :: mid) ++ [d])%list.

Inductive domain_name : list ascii -> Prop :=
| domain_one l : dns_label l -> domain_name l
| domain_cons l d : dns_label l -> domain_name d -> domain_name (l ++ "."%char :: d)%list.

Definition email_address (l : list ascii) : Prop :=
  exists local domain, l = (local ++ "@"%char :: domain)%list /\ local <> [] /\
    Forall (fun c => is_local_char c = true) local /\ domain_name domain.

(** ** Lemmas *)

Lemma split_on_nonempty sep l : split_on sep l <> [].
Proof. induction l as [|c l IH]; simpl; [done|]. case_decide; [done|]. by destruct (split_on sep l). Qed.

(** Cutting at a separator and joining back gives the string again. *)
Lemma join_split sep l : join_on sep (split_on sep l) = l.
Proof.
  induction l as [|c l IH]; [done|]. simpl. case_decide as Hc.
  - subst c. destruct (split_on sep l) as [|p ps] eqn:E; [by destruct (split_on_nonempty sep l)|].
    by rewrite <- IH.
  - destruct (split_on sep l) as [|p ps] eqn:E; [by destruct (split_on_nonempty sep l)|].
    rewrite <- IH. by destruct ps.
Qed.

(** No piece contains the separator. *)
Lemma split_on_no_sep sep l p : p ∈ split_on sep l -> sep ∉ p.
Proof.
  revert p. induction l as [|c l IH]; intros p Hp; simpl in Hp.
  - apply list_elem_of_singleton in Hp as ->. set_solver.
  - case_decide as Hc.
    + apply elem_of_cons in Hp as [->|Hp]; [set_solver|auto].
    + destruct (split_on sep l) as [|q qs] eqn:E; [by destruct (split_on_nonempty sep l)|].
      apply elem_of_cons in Hp as [->|Hp].
      * apply not_elem_of_cons. split; [done|]. apply IH; rewrite ?E; set_solver.
      * apply IH; rewrite ?E; set_solver.
Qed.

(** Cutting a string made of separator-free pieces gives the pieces. *)
Lemma split_on_no_sep_single sep l : sep ∉ l -> split_on sep l = [l].
Proof.
  induction l as [|c l IH]; intros Hl; [done|]. apply not_elem_of_cons in Hl as [Hc Hl].
  simpl. rewrite decide_False by done. by rewrite IH.
Qed.

Lemma split_on_app_sep sep l r : sep ∉ l -> split_on sep (l ++ sep :: r)%list = l :: split_on sep r.
Proof.
  induction l as [|c l IH]; intros Hl; simpl; [by rewrite decide_True|].
  apply not_elem_of_cons in Hl as [Hc Hl]. rewrite decide_False by done. by rewrite IH.
Qed.


Lemma alnum_label_char c : is_alnum c = true -> is_label_char c = true.
Proof. unfold is_label_char. intros ->. done. Qed.

Lemma dns_label_chars l : dns_label l -> Forall (fun x => is_label_char x = true) l.
Proof.
  intros []; [by constructor; [apply alnum_label_char|]|].
  constructor; [by apply alnum_label_char|]. apply Forall_app; split; [done|]. constructor; [by apply alnum_label_char|done].
Qed.

(** A character a predicate rejects is not in a string it accepts. *)
Lemma not_elem_of_Forall_bool (P : ascii -> bool) x l :
  P x = false -> Forall (fun c => P c = true) l -> x ∉ l.
Proof. intros Hx Hl Hin. rewrite Forall_forall in Hl. specialize (Hl x Hin). congruence. Qed.

Lemma valid_label_spec l : valid_label l = true <-> dns_label l.
Proof.
  split.
  - unfold valid_label. rewrite !andb_true_iff, !Nat.leb_le, forallb_forall.
    intros ((((Hlo & Hhi) & Hfirst) & Hlast) & Hall).
    destruct l as [|c r]; [done|]. destruct r as [|x r] using rev_ind; [by constructor|].
    rewrite app_comm_cons, last_snoc in Hlast. rewrite app_comm_cons.
    constructor; [done|done| |rewrite length_cons, length_app in Hhi; simpl in Hhi; lia].
    apply Forall_forall. intros y Hy. apply Hall, list_elem_of_In. set_solver.
  - intros Hl. pose proof (dns_label_chars l Hl) as Hc. unfold valid_label.
    apply andb_true_iff; split; [|apply forallb_forall; intros y Hy; rewrite Forall_forall in Hc;
                                   by apply Hc, list_elem_of_In].
    destruct Hl as [c Hc0|c mid d Hc0 Hd Hmid Hlen]; [by rewrite Hc0|].
    rewrite last_snoc, Hd, length_app, length_cons. cbn [app]. rewrite Hc0. simpl.
    rewrite ?andb_true_r. apply Nat.leb_le. lia.
Qed.

Lemma domain_name_chars d : domain_name d -> "@"%char ∉ d.
Proof.
  induction 1 as [l Hl|l d Hl Hd IH].
  - apply (not_elem_of_Forall_bool is_label_char); [done | by apply dns_label_chars].
  - rewrite elem_of_app, elem_of_cons. intros [Hin|[Heq|Hin]]; [|discriminate|done].
    revert Hin. apply (not_elem_of_Forall_bool is_label_char); [done | by apply dns_label_chars].
Qed.

Lemma domain_name_split d : domain_name d <-> Forall (fun p => valid_label p = true) (split_on "."%char d).
Proof.
  split.
  - induction 1 as [l Hl|l d Hl Hd IH].
    + rewrite split_on_no_sep_single; [by constructor; [apply valid_label_spec|]|].
      apply (not_elem_of_Forall_bool is_label_char); [done | by apply dns_label_chars].
    + rewrite split_on_app_sep; [by constructor; [apply valid_label_spec|]|].
      apply (not_elem_of_Forall_bool is_label_char); [done | by apply dns_label_chars].
  - rewrite <- (join_split "."%char d) at 2. generalize (split_on_nonempty "."%char d).
    generalize (split_on "."%char d) as ps. intros ps Hne Hps.
    induction Hps as [|p ps Hp Hps IH]; [done|]. apply valid_label_spec in Hp.
    destruct ps as [|q qs]; [by constructor|]. simpl. constructor; [done|]. by apply IH.
Qed.

Lemma split_on_two sep l local domain :
  split_on sep l = [local; domain] <-> l = (local ++ sep :: domain)%list /\ (sep ∉ local) /\ (sep ∉ domain).
Proof.
  split.
  - intros Hs. split_and!; [rewrite <- (join_split sep l), Hs; reflexivity| |];
      apply (split_on_no_sep sep l); rewrite Hs; set_solver.
  - intros (-> & Hl & Hd). rewrite split_on_app_sep by done. by rewrite split_on_no_sep_single.
Qed.

(** [valid_email] decides exactly the standard's grammar. *)
Lemma valid_email_spec s : valid_email s = true <-> email_address (String.list_ascii_of_string s).
Proof.
  unfold valid_email, email_address. generalize (String.list_ascii_of_string s) as l. intros l. split.
  - destruct (split_on "@"%char l) as [|local [|domain [|? ?]]] eqn:Hs; try discriminate.
    rewrite !andb_true_iff, negb_true_iff, !forallb_Forall. intros ((Hne & Hloc) & Hdom).
    apply split_on_two in Hs as (-> & _ & _). exists local, domain.
    split_and!; [done | by apply bool_decide_eq_false in Hne | done | by apply domain_name_split].
  - intros (local & domain & Hl & Hne & Hloc & Hdom).
    assert (Hs : split_on "@"%char l = [local; domain]).
    { apply split_on_two. split_and!; [done | | by apply domain_name_chars].
      by apply (not_elem_of_Forall_bool is_local_char). }
    rewrite Hs, !andb_true_iff, negb_true_iff, !forallb_Forall, <- domain_name_split.
    split_and!; [by apply bool_decide_eq_false | done | done].
Qed.

End ConstraintValidation.
