(* ===== verification/ContactForm.v ===== *)
(** * The contact form (page.tsx 26-33, 72-106, 1012-1078)

    [FormState] holds the three [useState] slices of the form ([formData], a
    JavaScript object kept as a [gmap string string]; [status], a string
    starting at [""]; [emailJsLoaded]) and what the environment observes of
    the form: the promises of [window.emailjs.send] not yet settled
    ([pending], oldest first), every request sent ([outbox]) and the console.

    [handleChange] and [handleSubmit] read the state of the render they
    belong to and return their effects ([FormEffect]): setter calls, console
    output and the send.  The [.then] continuations [onFulfilled] and
    [onRejected] run when the environment settles a pending promise
    ([settle]).  [submit_click] is the browser's part of a click on the
    submit button: nothing happens while the button is [disabled] (status
    ["sending"]) or while constraint validation fails. *)

From S2P Require Import Prelude ConstraintValidation.
Import ConstraintValidation.

Module ContactForm.

(** The arguments of [window.emailjs.send(serviceId, templateId, formData, publicKey)]. *)
Record EmailRequest := {
  serviceId : string;
  templateId : string;
  templateParams : gmap string string;
  publicKey : string
}.

(** How the environment settles the promise [send] returned: [response]
    with its [status] and [text], or an [error]. *)
Inductive Settlement :=
| Fulfilled (resp_status : Z) (resp_text : string)
| Rejected (error : string).

Record FormState := {
  formData : gmap string string;
  status : string;
  emailJsLoaded : bool;
  pending : list EmailRequest;
  outbox : list EmailRequest;
  console : list string
}.

(** [useState({ name: "", email: "", subject: "", message: "" })] *)
Definition initial_formData : gmap string string :=
  <["name" := ""]> (<["email" := ""]> (<["subject" := ""]> (<["message" := ""]> ∅))).

(** The object of [setFormData({ name: "", email: "", subject: "", message: "" })]
    in the success continuation. *)
Definition cleared_formData : gmap string string :=
  <["name" := ""]> (<["email" := ""]> (<["subject" := ""]> (<["message" := ""]> ∅))).

Definition form_init : FormState :=
  {| formData := initial_formData; status := ""; emailJsLoaded := false;
     pending := []; outbox := []; console := [] |}.

Inductive FormUpdate :=
| setFormData (d : gmap string string)
| setStatus (s : string)
| setEmailJsLoaded (b : bool).

Inductive FormEffect :=
| Update (u : FormUpdate)
| ConsoleLog (msg : string)
| ConsoleError (msg : string)
| Send (r : EmailRequest).

Definition form_apply (s : FormState) (e : FormEffect) : FormState :=
  match e with
  | Update (setFormData d) =>
      {| formData := d; status := status s; emailJsLoaded := emailJsLoaded s;
         pending := pending s; outbox := outbox s; console := console s |}
  | Update (setStatus st) =>
      {| formData := formData s; status := st; emailJsLoaded := emailJsLoaded s;
         pending := pending s; outbox := outbox s; console := console s |}
  | Update (setEmailJsLoaded b) =>
      {| formData := formData s; status := status s; emailJsLoaded := b;
         pending := pending s; outbox := outbox s; console := console s |}
  | ConsoleLog msg | ConsoleError msg =>
      {| formData := formData s; status := status s; emailJsLoaded := emailJsLoaded s;
         pending := pending s; outbox := outbox s; console := console s ++ [msg] |}
  | Send r =>
      {| formData := formData s; status := status s; emailJsLoaded := emailJsLoaded s;
         pending := pending s ++ [r]; outbox := outbox s ++ [r]; console := console s |}
  end.

Notation "s <<~ es" := (commit form_apply s es) (at level 50, left associativity) : ui_scope.
Local Open Scope ui_scope.

(** [setFormData({ ...formData, [e.target.name]: e.target.value })]: the
    spread copies the object and the computed key overwrites or adds one
    property. *)
Definition handleChange (s : FormState) (name value : string) : list FormEffect :=
  [Update (setFormData (<[name := value]> (formData s)))].

Definition emailjs_request (params : gmap string string) : EmailRequest :=
  {| serviceId := "service_hj82tib"; templateId := "template_zr0el5e";
     templateParams := params; publicKey := "pOYADk-qDd95pCXyI" |}.

Definition handleSubmit (s : FormState) : list FormEffect :=
  if negb (emailJsLoaded s)
  then [ConsoleError "EmailJS library not loaded."; Update (setStatus "error")]
  else [Update (setStatus "sending"); Send (emailjs_request (formData s))].

(** The two callbacks passed to [.then]. *)
Definition onFulfilled (resp_status : Z) (resp_text : string) : list FormEffect :=
  [ConsoleLog "SUCCESS!"; Update (setStatus "success"); Update (setFormData cleared_formData)].

Definition onRejected (error : string) : list FormEffect :=
  [ConsoleLog "FAILED..."; Update (setStatus "error")].

Definition continuation (o : Settlement) : list FormEffect :=
  match o with
  | Fulfilled st tx => onFulfilled st tx
  | Rejected err => onRejected err
  end.

Definition drop_pending (i : nat) (s : FormState) : FormState :=
  {| formData := formData s; status := status s; emailJsLoaded := emailJsLoaded s;
     pending := delete i (pending s); outbox := outbox s; console := console s |}.

(** The environment settles the [i]-th pending promise. *)
Definition settle (s : FormState) (i : nat) (o : Settlement) : FormState :=
  match pending s !! i with
  | Some _ => drop_pending i s <<~ continuation o
  | None => s
  end.

(** The four controls of the form markup. *)
Definition form_inputs : list FormInput := [
  {| input_id := "name"; input_name := "name"; input_type := "text"; input_required := true |};
  {| input_id := "email"; input_name := "email"; input_type := "email"; input_required := true |};
  {| input_id := "subject"; input_name := "subject"; input_type := "text"; input_required := true |};
  {| input_id := "message"; input_name := "message"; input_type := "textarea"; input_required := true |}
].

(** [value={formData.x}]: an absent property renders as an empty control. *)
Definition input_value (s : FormState) (name : string) : string :=
  default "" (formData s !! name).

Definition form_valid (s : FormState) : bool :=
  forallb (fun inp => input_valid inp (input_value s (input_name inp))) form_inputs.

(** [disabled={status === "sending"}] *)
Definition submit_disabled (s : FormState) : bool := bool_decide (status s = "sending").

(** A click on the submit button: the browser fires [submit], and React
    calls [handleSubmit], only for an enabled button and a valid form. *)
Definition submit_click (s : FormState) : FormState :=
  if submit_disabled s then s
  else if form_valid s then s <<~ handleSubmit s
  else s.

(** [{status === "sending" ? "Sending..." : "Send Message"}] *)
Definition submit_label (s : FormState) : string :=
  if bool_decide (status s = "sending") then "Sending..." else "Send Message".

(** The paragraphs rendered under the button for ["success"] and ["error"]. *)
Definition status_message (s : FormState) : option string :=
  if bool_decide (status s = "success") then Some "Message sent successfully!"
  else if bool_decide (status s = "error") then Some "Good Thankyou"
  else None.

(** The events of the slice: typing into the [index]-th control, a click on
    the submit button, the environment settling a promise, and the
    [script.onload] callback [() => setEmailJsLoaded(true)]. *)
Inductive FormEvent :=
| InputChange (index : nat) (value : string)
| SubmitClick
| Settle (i : nat) (o : Settlement)
| ScriptOnload.

Definition form_handle (s : FormState) (ev : FormEvent) : FormState :=
  match ev with
  | InputChange index value =>
      match form_inputs !! index with
      | Some inp => s <<~ handleChange s (input_name inp) value
      | None => s
      end
  | SubmitClick => submit_click s
  | Settle i o => settle s i o
  | ScriptOnload => s <<~ [Update (setEmailJsLoaded true)]
  end.

#[export] Instance form_component : Component FormState FormEvent :=
  {| c_init := form_init; c_handle := form_handle |}.

(** ** Functional behaviour of submit and of the settled send *)

(** C1: With the e-mail client not loaded, an accepted submit sets [status] to
    ["error"], logs the error and makes no network call: the form, the
    pending promises and the requests sent are unchanged. *)
Theorem submit_unloaded_errors s :
  emailJsLoaded s = false -> status s <> "sending" -> form_valid s = true ->
  form_handle s SubmitClick =
  {| formData := formData s; status := "error"; emailJsLoaded := false;
     pending := pending s; outbox := outbox s; console := console s ++ ["EmailJS library not loaded."] |}.
Proof.
  intros Hl Hs Hv. simpl. unfold submit_click.
  destruct (submit_disabled s) eqn:Hd; [unfold submit_disabled in Hd; by case_bool_decide|].
  rewrite ?Hv. unfold handleSubmit. rewrite Hl. destruct s; simpl in *; by subst.
Qed.

Definition filled_form : FormState :=
  {| formData := <["name" := "Ann"]> (<["email" := "ann@example.com"]>
                   (<["subject" := "Hi"]> (<["message" := "Hello"]> ∅)));
     status := ""; emailJsLoaded := false; pending := []; outbox := []; console := [] |}.

Lemma submit_unloaded_errors_witness :
  status (form_handle filled_form SubmitClick) = "error" /\ outbox (form_handle filled_form SubmitClick) = [].
Proof. rewrite (submit_unloaded_errors filled_form); [done | reflexivity | discriminate | reflexivity]. Defined.

(** C2: With the client loaded, an accepted submit sets [status] to
    ["sending"] and sends exactly one request: the fixed service, template
    and key identifiers with the form as it was rendered. *)
Theorem submit_loaded_sends s :
  emailJsLoaded s = true -> status s <> "sending" -> form_valid s = true ->
  form_handle s SubmitClick =
  {| formData := formData s; status := "sending"; emailJsLoaded := true;
     pending := pending s ++ [emailjs_request (formData s)];
     outbox := outbox s ++ [emailjs_request (formData s)]; console := console s |}.
Proof.
  intros Hl Hs Hv. simpl. unfold submit_click.
  destruct (submit_disabled s) eqn:Hd; [unfold submit_disabled in Hd; by case_bool_decide|].
  rewrite ?Hv. unfold handleSubmit. rewrite Hl. destruct s; simpl in *; by subst.
Qed.

Definition loaded_form : FormState :=
  {| formData := formData filled_form; status := "success"; emailJsLoaded := true;
     pending := []; outbox := []; console := [] |}.

Lemma submit_loaded_sends_witness :
  outbox (form_handle loaded_form SubmitClick) = [emailjs_request (formData filled_form)].
Proof. rewrite (submit_loaded_sends loaded_form); [done | reflexivity | discriminate | reflexivity]. Defined.

(** C12: While a send is in flight the button is disabled, and a form that fails
    constraint validation (an empty required field, a malformed e-mail) is
    not submitted: in both cases a click changes nothing. *)
Theorem submit_blocked s :
  status s = "sending" \/ form_valid s = false -> form_handle s SubmitClick = s.
Proof.
  intros H. simpl. unfold submit_click, submit_disabled.
  case_bool_decide as Hs; [done|]. destruct H as [H | ->]; [contradiction|done].
Qed.

Lemma submit_blocked_witness :
  form_handle (form_handle filled_form (InputChange 1 "not-an-address")) SubmitClick =
    form_handle filled_form (InputChange 1 "not-an-address").
Proof. apply submit_blocked. right. reflexivity. Defined.

(** C3: A fulfilled send clears the four fields back to their initial empty
    values and sets [status] to ["success"]. *)
Theorem send_fulfilled_clears s i r st tx :
  pending s !! i = Some r ->
  formData (form_handle s (Settle i (Fulfilled st tx))) = initial_formData /\
  status (form_handle s (Settle i (Fulfilled st tx))) = "success" /\
  pending (form_handle s (Settle i (Fulfilled st tx))) = delete i (pending s).
Proof. intros Hr. simpl. unfold settle. by rewrite Hr. Qed.

Lemma send_fulfilled_clears_witness :
  formData (form_handle (form_handle loaded_form SubmitClick) (Settle 0 (Fulfilled 200 "OK"))) = initial_formData.
Proof.
  destruct (send_fulfilled_clears (form_handle loaded_form SubmitClick) 0
              (emailjs_request (formData filled_form)) 200 "OK") as [-> _]; reflexivity.
Defined.

(** C4: A rejected send keeps the four fields as they are, so that the user can
    retry, and sets [status] to ["error"]. *)
Theorem send_rejected_keeps s i r err :
  pending s !! i = Some r ->
  formData (form_handle s (Settle i (Rejected err))) = formData s /\
  status (form_handle s (Settle i (Rejected err))) = "error" /\
  pending (form_handle s (Settle i (Rejected err))) = delete i (pending s).
Proof. intros Hr. simpl. unfold settle. by rewrite Hr. Qed.

Lemma send_rejected_keeps_witness :
  formData (form_handle (form_handle loaded_form SubmitClick) (Settle 0 (Rejected "network"))) =
    formData filled_form.
Proof.
  destruct (send_rejected_keeps (form_handle loaded_form SubmitClick) 0
              (emailjs_request (formData filled_form)) "network") as [-> _]; reflexivity.
Defined.


(** ** The slice's invariant *)

Definition form_keys : gset string := {["name"; "email"; "subject"; "message"]}.

(** A request as [handleSubmit] builds it: the three fixed identifiers and
    a snapshot of the four fields. *)
Definition request_ok (r : EmailRequest) : Prop :=
  serviceId r = "service_hj82tib" /\ templateId r = "template_zr0el5e" /\
  publicKey r = "pOYADk-qDd95pCXyI" /\ dom (templateParams r) = form_keys.

Definition form_inv (s : FormState) : Prop :=
  dom (formData s) = form_keys /\ Forall request_ok (outbox s) /\ Forall request_ok (pending s) /\
  length (pending s) <= 1 /\ (status s = "sending" <-> pending s <> []).

(** ** Functional behaviour of the handlers *)

Lemma handleChange_commit s name value :
  s <<~ handleChange s name value =
  {| formData := <[name := value]> (formData s); status := status s; emailJsLoaded := emailJsLoaded s;
     pending := pending s; outbox := outbox s; console := console s |}.
Proof. reflexivity. Qed.

Lemma handleSubmit_not_loaded s :
  emailJsLoaded s = false ->
  s <<~ handleSubmit s =
  {| formData := formData s; status := "error"; emailJsLoaded := false;
     pending := pending s; outbox := outbox s; console := console s ++ ["EmailJS library not loaded."] |}.
Proof. intros H. unfold handleSubmit. rewrite H. destruct s; simpl in *; by subst. Qed.

Lemma handleSubmit_loaded s :
  emailJsLoaded s = true ->
  s <<~ handleSubmit s =
  {| formData := formData s; status := "sending"; emailJsLoaded := true;
     pending := pending s ++ [emailjs_request (formData s)];
     outbox := outbox s ++ [emailjs_request (formData s)]; console := console s |}.
Proof. intros H. unfold handleSubmit. rewrite H. destruct s; simpl in *; by subst. Qed.

Lemma settle_fulfilled s i r st tx :
  pending s !! i = Some r ->
  settle s i (Fulfilled st tx) =
  {| formData := cleared_formData; status := "success"; emailJsLoaded := emailJsLoaded s;
     pending := delete i (pending s); outbox := outbox s; console := console s ++ ["SUCCESS!"] |}.
Proof. intros H. unfold settle. by rewrite H. Qed.

Lemma settle_rejected s i r err :
  pending s !! i = Some r ->
  settle s i (Rejected err) =
  {| formData := formData s; status := "error"; emailJsLoaded := emailJsLoaded s;
     pending := delete i (pending s); outbox := outbox s; console := console s ++ ["FAILED..."] |}.
Proof. intros H. unfold settle. by rewrite H. Qed.

Lemma form_handle_change s index inp value :
  form_inputs !! index = Some inp ->
  form_handle s (InputChange index value) =
  {| formData := <[input_name inp := value]> (formData s); status := status s;
     emailJsLoaded := emailJsLoaded s; pending := pending s; outbox := outbox s; console := console s |}.
Proof. intros H. simpl. by rewrite H. Qed.

Lemma form_handle_settle s i o : form_handle s (Settle i o) = settle s i o.
Proof. reflexivity. Qed.

Lemma settle_none s i o : pending s !! i = None -> settle s i o = s.
Proof. intros H. unfold settle. by rewrite H. Qed.

Lemma cleared_is_initial : cleared_formData = initial_formData.
Proof. reflexivity. Qed.

Lemma dom_initial_formData : dom initial_formData = form_keys.
Proof. unfold initial_formData, form_keys. rewrite !dom_insert_L, dom_empty_L. set_solver. Qed.

Lemma form_inputs_names inp : inp ∈ form_inputs -> input_name inp ∈ form_keys.
Proof.
  revert inp. apply Forall_forall. unfold form_inputs, form_keys.
  repeat constructor; simpl; set_solver.
Qed.

Lemma dom_insert_key (d : gmap string string) k v :
  dom d = form_keys -> k ∈ form_keys -> dom (<[k := v]> d) = form_keys.
Proof. intros Hd Hk. rewrite dom_insert_L, Hd. apply subseteq_union_1_L. by apply singleton_subseteq_l. Qed.

Lemma emailjs_request_ok d : dom d = form_keys -> request_ok (emailjs_request d).
Proof. done. Qed.

#[export] Hint Resolve dom_insert_key emailjs_request_ok form_inputs_names : portfolio.

Lemma form_inv_init : form_inv form_init.
Proof.
  split; [apply dom_initial_formData|]. split; [constructor|]. split; [constructor|].
  split; [simpl; lia|]. simpl. split; [discriminate | done].
Qed.

Lemma form_inv_change s inp value :
  inp ∈ form_inputs -> form_inv s -> form_inv (s <<~ handleChange s (input_name inp) value).
Proof.
  intros Hinp (Hd & Ho & Hp & Hl & Hst). rewrite handleChange_commit.
  repeat split; simpl; auto with portfolio; apply Hst.
Qed.

Lemma form_inv_submit s : form_inv s -> form_inv (submit_click s).
Proof.
  intros Hinv. unfold submit_click, submit_disabled. case_bool_decide as Hsend; [done|].
  destruct (form_valid s); [|done].
  destruct Hinv as (Hd & Ho & Hp & Hl & Hst).
  assert (Hnil : pending s = []) by (destruct (pending s); [done|]; by destruct Hsend; apply Hst).
  destruct (emailJsLoaded s) eqn:Hload.
  - rewrite handleSubmit_loaded by done. rewrite Hnil.
    repeat split; simpl; auto with portfolio.
    + apply Forall_app; auto with portfolio.
  - rewrite handleSubmit_not_loaded by done. rewrite Hnil.
    repeat split; simpl; auto; try (intros H; discriminate); try (intros H; by destruct H).
Qed.

Lemma form_inv_settle s i o : form_inv s -> form_inv (settle s i o).
Proof.
  intros Hinv. destruct (pending s !! i) as [r|] eqn:Hr; [|by rewrite settle_none].
  destruct Hinv as (Hd & Ho & Hp & Hl & Hst).
  assert (Hdel : delete i (pending s) = []).
  { destruct (pending s) as [|r0 [|r1 rs]]; simpl in *; [done| |lia]. by destruct i. }
  assert (Hdp : Forall request_ok (delete i (pending s))) by (rewrite Hdel; constructor).
  destruct o as [st tx|err]; [rewrite (settle_fulfilled _ _ r) by done | rewrite (settle_rejected _ _ r) by done];
    repeat split; simpl; rewrite ?Hdel; auto; try discriminate; try done.
  all: try (rewrite cleared_is_initial; apply dom_initial_formData).
Qed.

Lemma form_inv_handle s ev : form_inv s -> form_inv (form_handle s ev).
Proof.
  intros Hinv. destruct ev as [index value| |i o|]; simpl.
  - destruct (form_inputs !! index) as [inp|] eqn:Hinp; [|done].
    apply form_inv_change; [by eapply list_elem_of_lookup_2|done].
  - by apply form_inv_submit.
  - by apply form_inv_settle.
  - destruct Hinv as (Hd & Ho & Hp & Hl & Hst). split_and!; simpl; auto.
Qed.

#[export] Instance form_inv_component : ComponentInvariant FormState FormEvent form_inv.
Proof. split; [apply form_inv_init | apply form_inv_handle]. Qed.

(** ** Theorems on the invariant and on interleavings *)

(** C9: In every reachable state the form object has exactly the four fields,
    and every request the page has sent carries the three fixed identifiers
    and exactly the four fields. *)
Theorem reachable_requests_well_formed es :
  dom (formData (c_run (S := FormState) es)) = form_keys /\
  Forall request_ok (outbox (c_run (S := FormState) es)).
Proof. destruct (c_run_inv form_inv es) as (Hd & Ho & _). done. Qed.

(** C6: In every reachable state at most one send is in flight, and one is in
    flight exactly when [status] is ["sending"]. *)
Theorem reachable_single_flight es :
  length (pending (c_run (S := FormState) es)) <= 1 /\
  (status (c_run (S := FormState) es) = "sending" <-> pending (c_run (S := FormState) es) <> []).
Proof. destruct (c_run_inv form_inv es) as (_ & _ & _ & Hl & Hs). done. Qed.

(** C16: [handleSubmit] itself has no guard against a send in flight (only the
    disabled button has): called twice while loaded, it sends the same
    request twice, and if the second send succeeds before the first one
    fails, the page ends on ["error"] with the form already cleared. *)
Theorem handler_double_submit s :
  emailJsLoaded s = true ->
  let r := emailjs_request (formData s) in
  let s1 := s <<~ handleSubmit s in
  let s2 := s1 <<~ handleSubmit s1 in
  let n := length (pending s) in
  let s3 := settle (settle s2 (S n) (Fulfilled 200 "OK")) n (Rejected "timeout") in
  outbox s2 = (outbox s ++ [r; r])%list /\
  status s3 = "error" /\ formData s3 = initial_formData /\ pending s3 = pending s.
Proof.
  intros Hl r s1 s2 n s3.
  assert (E2 : s2 = {| formData := formData s; status := "sending"; emailJsLoaded := true;
                       pending := (pending s ++ [r; r])%list; outbox := (outbox s ++ [r; r])%list;
                       console := console s |}).
  { subst s2 s1. rewrite (handleSubmit_loaded s Hl). rewrite handleSubmit_loaded by reflexivity.
    simpl. by rewrite <- !(assoc_L app). }
  assert (Hn1 : (pending s ++ [r; r])%list !! S n = Some r) by (rewrite lookup_app_r; [subst n; by rewrite Nat.sub_succ_l, Nat.sub_diag | lia]).
  assert (Hn : (pending s ++ [r])%list !! n = Some r) by (rewrite lookup_app_r; [subst n; by rewrite Nat.sub_diag | lia]).
  assert (Hd1 : delete (S n) (pending s ++ [r; r])%list = (pending s ++ [r])%list).
  { replace (S n) with (length (pending s ++ [r])%list) by (subst n; rewrite length_app; simpl; lia).
    change (pending s ++ [r; r])%list with (pending s ++ [r] ++ [r])%list.
    by rewrite app_assoc, delete_middle, app_nil_r. }
  assert (Hd : delete n (pending s ++ [r])%list = pending s).
  { subst n. by rewrite delete_middle, app_nil_r. }
  subst s3. rewrite E2. rewrite (settle_fulfilled _ _ r) by done. simpl. rewrite Hd1.
  rewrite (settle_rejected _ _ r) by done. simpl. by rewrite Hd, cleared_is_initial.
Qed.

Lemma handler_double_submit_witness :
  status (settle (settle (loaded_form <<~ handleSubmit loaded_form <<~
                          handleSubmit (loaded_form <<~ handleSubmit loaded_form))
                    1 (Fulfilled 200 "OK")) 0 (Rejected "timeout")) = "error".
Proof. apply (handler_double_submit loaded_form). reflexivity. Defined.

(** C17: The fields stay editable while a send is in flight, but what is typed
    then is neither sent (the request holds the earlier snapshot) nor kept:
    the success continuation overwrites it with empty fields. *)
Theorem edit_during_send_lost s index inp value r st tx :
  form_inputs !! index = Some inp -> pending s = [r] ->
  let s' := form_handle (form_handle s (InputChange index value)) (Settle 0 (Fulfilled st tx)) in
  formData s' !! input_name inp = Some "" /\ outbox s' = outbox s.
Proof.
  intros Hinp Hp s'. subst s'. rewrite (form_handle_change _ _ inp) by done.
  rewrite form_handle_settle, (settle_fulfilled _ _ r) by (simpl; by rewrite Hp). simpl. split; [|done].
  rewrite cleared_is_initial. apply list_elem_of_lookup_2 in Hinp.
  unfold form_inputs in Hinp. repeat (apply elem_of_cons in Hinp as [->|Hinp]; [reflexivity|]).
  by apply elem_of_nil in Hinp.
Qed.

Lemma edit_during_send_lost_witness :
  formData (form_handle (form_handle (form_handle loaded_form SubmitClick) (InputChange 3 "P.S."))
              (Settle 0 (Fulfilled 200 "OK"))) !! "message" = Some "".
Proof.
  destruct (edit_during_send_lost (form_handle loaded_form SubmitClick) 3
              {| input_id := "message"; input_name := "message"; input_type := "textarea"; input_required := true |}
              "P.S." (emailjs_request (formData filled_form)) 200 "OK") as [H _];
    [reflexivity | reflexivity | exact H].
Defined.

(** C18: Once [status] has left its initial [""], no event brings it back: an
    edit after ["success"] or ["error"] keeps the message on screen. *)
Theorem status_never_idle_again s ev :
  status s <> "" -> status (form_handle s ev) <> "".
Proof.
  intros Hs. destruct ev as [index value| |i o|]; simpl.
  - by destruct (form_inputs !! index).
  - unfold submit_click. destruct (submit_disabled s); [done|]. destruct (form_valid s); [|done].
    unfold handleSubmit. by destruct (emailJsLoaded s).
  - destruct (pending s !! i) as [r|] eqn:Hr; [|by rewrite settle_none].
    destruct o; [rewrite (settle_fulfilled _ _ r) | rewrite (settle_rejected _ _ r)]; done.
  - done.
Qed.

Lemma status_never_idle_again_witness :
  status loaded_form <> "" /\ status (form_handle loaded_form (InputChange 0 "Bob")) <> "".
Proof. split; [discriminate | apply status_never_idle_again; discriminate]. Defined.

(** C19: Every failure, an unloaded client or a rejected send, shows the text
    ["Good Thankyou"] under a re-enabled button, the same kind of text a
    success would show. *)
Theorem failure_message s i r err :
  pending s !! i = Some r ->
  status_message (form_handle s (Settle i (Rejected err))) = Some "Good Thankyou" /\
  submit_label (form_handle s (Settle i (Rejected err))) = "Send Message".
Proof. intros Hr. rewrite form_handle_settle, (settle_rejected _ _ r) by done. done. Qed.

Lemma failure_message_witness :
  status_message (form_handle (form_handle loaded_form SubmitClick) (Settle 0 (Rejected "network"))) =
    Some "Good Thankyou".
Proof. apply (failure_message _ 0 (emailjs_request (formData filled_form))). reflexivity. Defined.

End ContactForm.
