(* ===== verification/FormRefinement.v ===== *)
(** * The contact form against its specification

    [FormSpec] is the form as the specification describes it: a record of
    four string fields, a submission status [Idle], [Sending], [Success] or
    [Error], whether the e-mail client is loaded, the snapshot in flight and
    the snapshots sent.  Its [spec_step] is parameterised by the browser's
    [valid] check of the fields.  [abs] maps a [ContactForm.FormState] to a
    [SpecState]: the fields are read from the JavaScript object by name, the
    status string is mapped to the enum.  The refinement theorem says that
    every event of the code does what [spec_step] does on the abstraction,
    or nothing visible. *)

From S2P Require Import Prelude ConstraintValidation ContactForm.
Import ConstraintValidation ContactForm.

Module FormSpec.

Inductive SubmissionStatus := Idle | Sending | Success | Error.

#[export] Instance SubmissionStatus_eq_dec : EqDecision SubmissionStatus.
Proof. solve_decision. Defined.

Record Fields := {
  f_name : string;
  f_email : string;
  f_subject : string;
  f_message : string
}.

Inductive Field := FName | FEmail | FSubject | FMessage.

Definition empty_fields : Fields := {| f_name := ""; f_email := ""; f_subject := ""; f_message := "" |}.

Definition set_field (f : Fields) (k : Field) (v : string) : Fields :=
  match k with
  | FName => {| f_name := v; f_email := f_email f; f_subject := f_subject f; f_message := f_message f |}
  | FEmail => {| f_name := f_name f; f_email := v; f_subject := f_subject f; f_message := f_message f |}
  | FSubject => {| f_name := f_name f; f_email := f_email f; f_subject := v; f_message := f_message f |}
  | FMessage => {| f_name := f_name f; f_email := f_email f; f_subject := f_subject f; f_message := v |}
  end.

Record SpecState := {
  fields : Fields;
  sstatus : SubmissionStatus;
  loaded : bool;
  in_flight : option Fields;
  sent : list Fields
}.

Inductive SpecEvent :=
| Edit (k : Field) (v : string)
| Submit
| Complete (ok : bool)
| ClientLoaded.

Section Machine.
Context (valid : Fields -> bool).

(** One event of the specification: edits change one field; a submit is
    ignored while sending or for invalid fields, fails at once without the
    client, and otherwise sends a snapshot; completion sets the status and,
    on success, empties the fields. *)
Definition spec_step (s : SpecState) (ev : SpecEvent) : SpecState :=
  match ev with
  | Edit k v =>
      {| fields := set_field (fields s) k v; sstatus := sstatus s; loaded := loaded s;
         in_flight := in_flight s; sent := sent s |}
  | Submit =>
      if decide (sstatus s = Sending) then s
      else if negb (valid (fields s)) then s
      else if negb (loaded s)
      then {| fields := fields s; sstatus := Error; loaded := false;
              in_flight := in_flight s; sent := sent s |}
      else {| fields := fields s; sstatus := Sending; loaded := true;
              in_flight := Some (fields s); sent := sent s ++ [fields s] |}
  | Complete ok =>
      match in_flight s with
      | None => s
      | Some _ =>
          if ok
          then {| fields := empty_fields; sstatus := Success; loaded := loaded s;
                  in_flight := None; sent := sent s |}
          else {| fields := fields s; sstatus := Error; loaded := loaded s;
                  in_flight := None; sent := sent s |}
      end
  | ClientLoaded =>
      {| fields := fields s; sstatus := sstatus s; loaded := true;
         in_flight := in_flight s; sent := sent s |}
  end.
End Machine.

End FormSpec.

Module FormRefinement.
Import FormSpec.

(** ** The abstraction of the code's state *)

Definition field_of_name (d : gmap string string) : Fields :=
  {| f_name := default "" (d !! "name"); f_email := default "" (d !! "email");
     f_subject := default "" (d !! "subject"); f_message := default "" (d !! "message") |}.

Definition abs_status (st : string) : SubmissionStatus :=
  if decide (st = "sending") then Sending
  else if decide (st = "success") then Success
  else if decide (st = "error") then Error
  else Idle.

Definition abs (c : FormState) : SpecState :=
  {| fields := field_of_name (formData c); sstatus := abs_status (status c);
     loaded := emailJsLoaded c;
     in_flight := (fun r => field_of_name (templateParams r)) <$> head (pending c);
     sent := map (fun r => field_of_name (templateParams r)) (outbox c) |}.

(** The field each control of the form edits. *)
Definition field_of_input (index : nat) : option Field :=
  match index with
  | 0 => Some FName | 1 => Some FEmail | 2 => Some FSubject | 3 => Some FMessage
  | _ => None
  end.

(** The specification event a code event implements; [None] for events
    that change nothing the specification sees. *)
Definition abs_event (ev : FormEvent) : option SpecEvent :=
  match ev with
  | InputChange index v => (fun k => Edit k v) <$> field_of_input index
  | SubmitClick => Some Submit
  | Settle 0 (Fulfilled _ _) => Some (Complete true)
  | Settle 0 (Rejected _) => Some (Complete false)
  | Settle (S _) _ => None
  | ScriptOnload => Some ClientLoaded
  end.

(** The browser's constraint validation, read on the abstract fields. *)
Definition fields_valid (f : Fields) : bool :=
  forallb (fun inp => input_valid inp
             (match input_name inp with
              | "name" => f_name f | "email" => f_email f
              | "subject" => f_subject f | _ => f_message f
              end)) form_inputs.

Definition statuses : list string := [""; "sending"; "success"; "error"].

Definition refine_inv (c : FormState) : Prop := form_inv c /\ status c ∈ statuses.

(** ** Lemmas *)

Lemma abs_status_sending st : st ∈ statuses -> abs_status st = Sending <-> st = "sending".
Proof. unfold statuses. intros Hst. repeat (apply elem_of_cons in Hst as [->|Hst]; [done|]). set_solver. Qed.

Lemma form_valid_abs c : form_valid c = fields_valid (field_of_name (formData c)).
Proof. reflexivity. Qed.

Lemma field_of_name_change d index inp k v :
  form_inputs !! index = Some inp -> field_of_input index = Some k ->
  field_of_name (<[input_name inp := v]> d) = set_field (field_of_name d) k v.
Proof.
  intros Hinp Hk. destruct index as [|[|[|[|index]]]]; simplify_eq/=;
    unfold field_of_name, set_field; f_equal; by simplify_map_eq.
Qed.

Lemma field_of_input_lookup index :
  is_Some (form_inputs !! index) <-> is_Some (field_of_input index).
Proof. destruct index as [|[|[|[|index]]]]; simpl; split; intros [? H]; by eauto. Qed.

Lemma pending_at_most_one c r i :
  form_inv c -> pending c !! i = Some r -> i = 0 /\ pending c = [r].
Proof.
  intros (_ & _ & _ & Hl & _) Hr. destruct (pending c) as [|r0 [|r1 rs]]; simpl in *; [done| |lia].
  destruct i as [|i]; simpl in Hr; [by simplify_eq | by rewrite lookup_nil in Hr].
Qed.

Lemma status_stays_known c ev : status c ∈ statuses -> status (form_handle c ev) ∈ statuses.
Proof.
  intros Hst. unfold statuses in *. destruct ev as [index value| |i o|]; simpl.
  - by destruct (form_inputs !! index).
  - unfold submit_click. destruct (submit_disabled c); [done|]. destruct (form_valid c); [|done].
    unfold handleSubmit. destruct (emailJsLoaded c); simpl; elem_lit.
  - destruct (pending c !! i) as [r|] eqn:Hr; [|by rewrite settle_none].
    destruct o; [rewrite (settle_fulfilled _ _ r) by done | rewrite (settle_rejected _ _ r) by done]; simpl; elem_lit.
  - done.
Qed.

Lemma refine_inv_handle c ev : refine_inv c -> refine_inv (form_handle c ev).
Proof. intros [Hf Hs]. split; [by apply form_inv_handle | by apply status_stays_known]. Qed.

(** The specification's step for a code event, or no step. *)
Definition spec_of (ev : FormEvent) (s : SpecState) : SpecState :=
  match abs_event ev with Some e => spec_step fields_valid s e | None => s end.

Lemma refines_change c index value : abs (form_handle c (InputChange index value)) = spec_of (InputChange index value) (abs c).
Proof.
  unfold spec_of. destruct (form_inputs !! index) as [inp|] eqn:Hinp.
  - destruct (proj1 (field_of_input_lookup index) (mk_is_Some _ _ Hinp)) as [k Hk].
    rewrite (form_handle_change _ _ inp) by done. simpl. rewrite Hk. simpl.
    unfold abs; simpl. by rewrite (field_of_name_change _ index inp k).
  - assert (Hk : field_of_input index = None).
    { destruct (field_of_input index) eqn:E; [|done].
      destruct (proj2 (field_of_input_lookup index) (mk_is_Some _ _ E)) as [? H]. congruence. }
    simpl. by rewrite Hinp, Hk.
Qed.

Lemma refines_submit c : refine_inv c -> abs (form_handle c SubmitClick) = spec_of SubmitClick (abs c).
Proof.
  unfold spec_of. intros [(Hd & Ho & Hp & Hl & Hst) Hknown]. simpl. unfold submit_click, submit_disabled, abs at 2; simpl.
  case_bool_decide as Hs.
  - by rewrite decide_True by (by apply abs_status_sending).
  - rewrite decide_False by (by rewrite abs_status_sending). rewrite <- form_valid_abs.
    destruct (form_valid c); [|done].
    assert (Hnil : pending c = []) by (destruct (pending c); [done|]; by destruct Hs; apply Hst).
    destruct (emailJsLoaded c) eqn:Hload.
    + rewrite handleSubmit_loaded by done. unfold abs; simpl. rewrite Hnil, map_app. done.
    + rewrite handleSubmit_not_loaded by done. unfold abs; simpl. by rewrite Hnil.
Qed.

Lemma refines_settle c i o : refine_inv c -> abs (form_handle c (Settle i o)) = spec_of (Settle i o) (abs c).
Proof.
  unfold spec_of. intros [Hinv Hknown]. rewrite form_handle_settle.
  destruct (pending c !! i) as [r|] eqn:Hr.
  - destruct (pending_at_most_one c r i Hinv Hr) as [-> Hp].
    destruct o as [st tx|err];
      [rewrite (settle_fulfilled _ _ r) by done | rewrite (settle_rejected _ _ r) by done];
      unfold abs; simpl; by rewrite Hp.
  - rewrite settle_none by done.
    destruct i as [|i]; [|by destruct o]. destruct (pending c) eqn:Hp; [|done].
    unfold abs; rewrite Hp; by destruct o.
Qed.

Lemma refines_event c ev :
  refine_inv c -> abs (form_handle c ev) = spec_of ev (abs c).
Proof.
  intros Hinv. destruct ev as [index value| |i o|].
  - apply refines_change.
  - by apply refines_submit.
  - by apply refines_settle.
  - reflexivity.
Qed.

(** C5: The refinement, as a simulation diagram: on every state satisfying the
    invariant, each event of the contact form keeps the invariant and
    changes the abstract state exactly as the specification's step for the
    corresponding event does (fields by name, the status string as the
    enum, the snapshot in flight and the snapshots sent), or leaves it
    unchanged when the event has no counterpart. *)
Theorem form_refines c ev :
  refine_inv c -> refine_inv (form_handle c ev) /\ abs (form_handle c ev) = spec_of ev (abs c).
Proof. intros Hinv. split; [by apply refine_inv_handle | by apply refines_event]. Qed.

Ltac solve_refine_inv :=
  split; [unfold form_inv; simpl; split_and!;
          [reflexivity | constructor | constructor | simpl; lia | split; [discriminate | done]]
         | elem_lit].

Lemma form_refines_witness :
  refine_inv loaded_form /\
  abs (form_handle loaded_form SubmitClick) = spec_of SubmitClick (abs loaded_form).
Proof.
  assert (Hinv : refine_inv loaded_form) by solve_refine_inv.
  split; [exact Hinv | exact (proj2 (form_refines loaded_form SubmitClick Hinv))].
Defined.

Lemma refine_inv_init : refine_inv form_init.
Proof. split; [apply form_inv_init | elem_lit]. Qed.

#[export] Instance refine_inv_component : ComponentInvariant FormState FormEvent refine_inv.
Proof. split; [apply refine_inv_init | apply refine_inv_handle]. Qed.

(** Trace refinement, the simulation [form_refines] composed along a
    trace: after any sequence of events from the initial page,
    the abstraction of the code's state is the state the specification
    reaches by the corresponding sequence of its own steps. *)
Theorem form_trace_refines es :
  abs (c_run (S := FormState) es) = foldl (fun s ev => spec_of ev s) (abs form_init) es.
Proof.
  induction es as [|ev es IH] using rev_ind; [done|].
  rewrite c_run_snoc, foldl_app, <- IH. apply (refines_event _ ev), c_run_inv, _.
Qed.

(** One control passes validation: [required] with a value, and for the
    [type="email"] control an address in the standard's grammar. *)
Lemma input_valid_spec inp v :
  input_required inp = true ->
  input_valid inp v = true <->
  v <> "" /\ (input_type inp = "email" -> email_address (String.list_ascii_of_string v)).
Proof.
  intros Hr. unfold input_valid. rewrite Hr, andb_true_iff, negb_true_iff, andb_true_l, bool_decide_eq_false.
  case_bool_decide as Ht; [|naive_solver]. rewrite orb_true_iff, bool_decide_eq_true, valid_email_spec. naive_solver.
Qed.

(** C21: the browser lets a click on the submit button reach
    [handleSubmit] exactly when the four fields are non-empty and the
    e-mail field holds an address of the HTML standard's grammar (one of
    the browser's checks is the code's [type="email"], which the
    specification does not mention). *)
Theorem form_valid_iff s :
  form_valid s = true <->
  Forall (fun inp => input_value s (input_name inp) <> "") form_inputs /\
  email_address (String.list_ascii_of_string (input_value s "email")).
Proof.
  unfold form_valid, form_inputs. rewrite forallb_Forall.
  rewrite !Forall_cons, Forall_nil, !input_valid_spec by done. simpl. naive_solver.
Qed.

Lemma form_valid_iff_witness :
  email_address (String.list_ascii_of_string (input_value loaded_form "email")).
Proof. apply (form_valid_iff loaded_form). reflexivity. Defined.

End FormRefinement.
