(* ===== verification/Navbar.v ===== *)
(** * The navigation bar and the mobile menu (page.tsx 37, 174-248)

    [menuOpen] is [useState(false)]; the hamburger button's [onClick] is
    [() => setMenuOpen(!menuOpen)] and shows the [X] icon while the menu is
    open.  The desktop bar and the mobile dropdown (rendered only while
    [menuOpen]) each list seven anchors [href="#id"]; a click on an anchor
    has no handler, so the browser only scrolls to the element with that id
    and records the fragment.  [page_sections] lists the [id]s of the
    page's sections in order (the hero section has none). *)

From S2P Require Import Prelude.
From Stdlib Require Import Ascii.

Module Navbar.

Record NavLink := {
  href : string;
  label : string
}.

Definition desktop_links : list NavLink := [
  {| href := "#about"; label := "About Me" |};
  {| href := "#services"; label := "Services" |};
  {| href := "#skills"; label := "Skills & Technologies" |};
  {| href := "#experience"; label := "Experience" |};
  {| href := "#projects"; label := "Projects" |};
  {| href := "#certifications"; label := "Certifications" |};
  {| href := "#contact"; label := "Contact" |}
].

Definition mobile_links : list NavLink := [
  {| href := "#about"; label := "About Me" |};
  {| href := "#services"; label := "Services" |};
  {| href := "#skills"; label := "Skills & Technologies" |};
  {| href := "#experience"; label := "Experience" |};
  {| href := "#projects"; label := "Projects" |};
  {| href := "#certifications"; label := "Certifications" |};
  {| href := "#contact"; label := "Contact" |}
].

(** The [id] of each [<section>] of [<main>], in document order. *)
Definition page_sections : list (option string) := [
  None; Some "about"; Some "services"; Some "work-process"; Some "skills";
  Some "experience"; Some "projects"; Some "certifications"; Some "contact"
].

Record NavState := {
  menuOpen : bool;
  location_hash : string;      (** the fragment of the URL *)
  scrolled_to : option string  (** the section the last anchor scrolled to *)
}.

Definition nav_init : NavState := {| menuOpen := false; location_hash := ""; scrolled_to := None |}.

Inductive Icon := MenuIcon | XIcon.

(** [{menuOpen ? <X size={28} /> : <Menu size={28} />}] *)
Definition hamburger_icon (n : NavState) : Icon := if menuOpen n then XIcon else MenuIcon.

(** [{menuOpen && (<div> ... </div>)}]: the links of the mobile dropdown. *)
Definition rendered_dropdown (n : NavState) : list NavLink := if menuOpen n then mobile_links else [].

(** [() => setMenuOpen(!menuOpen)] *)
Definition toggle_menu (n : NavState) : NavState :=
  {| menuOpen := negb (menuOpen n); location_hash := location_hash n; scrolled_to := scrolled_to n |}.

(** The element a fragment [#id] designates. *)
Definition fragment_target (h : string) : option string :=
  match h with
  | String "#"%char id => if bool_decide (Some id ∈ page_sections) then Some id else None
  | _ => None
  end.

(** The browser's default action for a click on [<a href="#id">]. *)
Definition follow_anchor (l : NavLink) (n : NavState) : NavState :=
  {| menuOpen := menuOpen n; location_hash := href l; scrolled_to := fragment_target (href l) |}.

Inductive NavEvent :=
| ToggleMenu
| ClickDesktopLink (i : nat)
| ClickMobileLink (i : nat).

Definition nav_handle (n : NavState) (ev : NavEvent) : NavState :=
  match ev with
  | ToggleMenu => toggle_menu n
  | ClickDesktopLink i => match desktop_links !! i with Some l => follow_anchor l n | None => n end
  | ClickMobileLink i => match rendered_dropdown n !! i with Some l => follow_anchor l n | None => n end
  end.

#[export] Instance nav_component : Component NavState NavEvent :=
  {| c_init := nav_init; c_handle := nav_handle |}.

(** ** Lemmas *)

(** A property of every section id, checked section by section. *)
Lemma sections_forall (P : string -> Prop) :
  Forall (fun o => match o with Some id => P id | None => True end) page_sections ->
  forall id, Some id ∈ page_sections -> P id.
Proof. rewrite Forall_forall. intros H id Hid. exact (H _ Hid). Qed.

(** ** Theorems *)

(** C28: Every anchor of both menus designates a section of the page, and
    following it scrolls there. *)
Theorem nav_links_resolve :
  Forall (fun l => exists id, fragment_target (href l) = Some id /\ Some id ∈ page_sections)
         (desktop_links ++ mobile_links).
Proof. simpl. repeat (constructor; [eexists; split; [reflexivity | elem_lit] |]). constructor. Qed.

(** The mobile dropdown offers the same anchors, with the same labels and
    in the same order, as the desktop bar. *)
Theorem mobile_mirrors_desktop : mobile_links = desktop_links.
Proof. reflexivity. Qed.

(** C29: Both menus, the desktop bar and the mobile dropdown, reach every
    section of the page that has an [id] except the work-process section:
    for each menu and each section id, some anchor of the menu designates
    it exactly when it is not ["work-process"]. *)
Theorem linked_sections :
  Forall (fun menu => forall id, Some id ∈ page_sections ->
            (Exists (fun l => fragment_target (href l) = Some id) menu <-> id <> "work-process"))
         [desktop_links; mobile_links].
Proof.
  forall_lit; apply sections_forall; forall_lit; lazy beta iota;
    first [exact I | apply (bool_decide_unpack _); vm_compute; reflexivity].
Qed.

Lemma linked_sections_witness :
  Some "skills" ∈ page_sections /\ Exists (fun l => fragment_target (href l) = Some "skills") mobile_links.
Proof.
  assert (Hin : Some "skills" ∈ page_sections) by elem_lit.
  split; [exact Hin|]. pose proof linked_sections as H. apply Forall_inv_tail, Forall_inv in H.
  apply (H "skills" Hin). discriminate.
Defined.

(** C30: The anchors of the dropdown have no [onClick]: following one scrolls to
    its section but leaves the menu open, still covering the page. *)
Theorem mobile_link_keeps_menu_open n i l :
  menuOpen n = true -> mobile_links !! i = Some l ->
  let n' := nav_handle n (ClickMobileLink i) in
  menuOpen n' = true /\ rendered_dropdown n' = mobile_links /\ scrolled_to n' = fragment_target (href l).
Proof. intros Ho Hl n'. subst n'. simpl. unfold rendered_dropdown. rewrite Ho, Hl. simpl. by rewrite Ho. Qed.

Lemma mobile_link_keeps_menu_open_witness :
  menuOpen (nav_handle (nav_handle nav_init ToggleMenu) (ClickMobileLink 6)) = true.
Proof. destruct (mobile_link_keeps_menu_open (nav_handle nav_init ToggleMenu) 6 {| href := "#contact"; label := "Contact" |}) as [H _]; [reflexivity | reflexivity | exact H]. Defined.

(** The icon shows [X] exactly while the dropdown is rendered, and the
    hamburger button alternates the two. *)
Theorem icon_matches_dropdown n :
  (hamburger_icon n = XIcon <-> rendered_dropdown n <> []) /\
  menuOpen (toggle_menu (toggle_menu n)) = menuOpen n.
Proof.
  split; [|apply negb_involutive]. unfold hamburger_icon, rendered_dropdown.
  destruct (menuOpen n); split; intros H; try discriminate; try done; by destruct H.
Qed.

End Navbar.
