(* ===== verification/Links.v ===== *)
(** * Outbound links, the hero buttons and the project cards
      (page.tsx 24, 273-285, 310-317, 664-796, 998-1009)

    Every [<a>] of the page outside the navigation bar, as its [href],
    [target] and [rel] attributes: the résumé button of the hero, the
    profile icons of the hero and of the contact section, and the GitHub
    and "Live Demo" buttons of the three project cards.  The hero's "View
    Projects" is a [<button>] with no [onClick] and no form owner, so its
    activation does nothing.  [resolve] is the browser's resolution of an
    [href] against the page's URL [/] (absolute [https:]/[http:] URLs,
    fragments, root-relative and path-relative references; the hrefs of
    the page contain no [./], [../] or query-only references), and
    [follow] is the activation of an anchor: a new browsing context for
    [target="_blank"], the current one otherwise.  [app_routes] are the
    paths the Next.js app serves: its [src/app] directory has one page, the
    default export of [page.tsx], served at [/]. *)

From S2P Require Import Prelude ConstraintValidation Navbar.
From Stdlib Require Import Ascii.
Import ConstraintValidation Navbar.

Module Links.

Record Anchor := {
  a_href : string;
  a_target : option string;
  a_rel : option string;
  a_label : string   (** the text, or the name of the icon it shows *)
}.

(** The hero's two controls. *)
Inductive HeroControl :=
| HeroButton (label : string)
| HeroAnchor (a : Anchor).

Definition view_resume : Anchor :=
  {| a_href := "https://macro.com/app/pdf/230ff6b9-e298-4bfa-ad83-30c071cbad36?pdf_page_number=1&pdf_page_y=0";
     a_target := Some "_blank"; a_rel := Some "noopener noreferrer"; a_label := "View Resume" |}.

Definition hero_controls : list HeroControl := [HeroButton "View Projects"; HeroAnchor view_resume].

Definition github_profile : Anchor :=
  {| a_href := "https://github.com/KenTuei"; a_target := None; a_rel := None; a_label := "Github" |}.
Definition linkedin_profile : Anchor :=
  {| a_href := "https://www.linkedin.com/in/ken-kipkirui-tuei-2965271b8"; a_target := None; a_rel := None;
     a_label := "Linkedin" |}.
Definition facebook_profile : Anchor :=
  {| a_href := "https://www.facebook.com/ken.tuei.whittle?mibextid=wwXIfr&rdid=4ydSz1mdGnQlitUl&share_url=https%3A%2F%2Fwww.facebook.com%2Fshare%2F1CFRPuZQyo%2F%3Fmibextid%3DwwXIfr";
     a_target := None; a_rel := None; a_label := "Facebook" |}.

Definition hero_socials : list Anchor := [github_profile; linkedin_profile].
Definition contact_socials : list Anchor := [github_profile; linkedin_profile; facebook_profile].

Record Project := {
  project_title : string;
  project_image : string;
  project_alt : string;
  project_badge : string;
  project_tags : list string;
  project_github : Anchor;
  project_demo : Anchor
}.

Definition card_link (href label : string) : Anchor :=
  {| a_href := href; a_target := Some "_blank"; a_rel := Some "noopener noreferrer"; a_label := label |}.

Definition projects : list Project := [
  {| project_title := "Moringa School Marketplace";
     project_image := "https://i.ibb.co/LzgD1LTm/cyber-monday-shopping-sales.jpg";
     project_alt := "Moringa School Marketplace"; project_badge := "Full Stack";
     project_tags := ["React"; "Tailwind CSS"; "Python Flask"; "M-Pesa API"];
     project_github := card_link "https://github.com/Dean14692-prog/Moringa-Marketplace" "GitHub";
     project_demo := card_link "YOUR_LIVE_DEMO_LINK_HERE" "Live Demo" |};
  {| project_title := "Coffee Shop OOP Model";
     project_image := "https://i.ibb.co/8nKF0Jhk/COFEE.jpg";
     project_alt := "Coffee Shop OOP Model"; project_badge := "Python OOP";
     project_tags := ["Python"; "OOP"];
     project_github := card_link "https://github.com/KenTuei/Coffee_Shop" "GitHub";
     project_demo := card_link "YOUR_LIVE_DEMO_LINK_HERE" "Live Demo" |};
  {| project_title := "Vivid Cosmetics";
     project_image := "https://i.ibb.co/q3DVd6nR/VIVID.jpg";
     project_alt := "ECOM API"; project_badge := "Backend API";
     project_tags := ["Python Flask"; "SQLAlchemy"; "SQLite"; "REST API"];
     project_github := card_link "https://github.com/KenTuei/Vivid-Vibe-Cosmetics" "GitHub";
     project_demo := card_link "YOUR_LIVE_DEMO_LINK_HERE" "Live Demo" |}
].

(** Every anchor of the page outside the navigation bar, in document order. *)
Definition page_anchors : list Anchor :=
  ([view_resume] ++ hero_socials ++
   concat (map (fun p => [project_github p; project_demo p]) projects) ++ contact_socials)%list.

(** The routes of the app: [src/app/page.tsx] is the page at [/]. *)
Definition app_routes : list string := ["/"].

(** ** URL resolution and activation *)

Inductive Destination :=
| External (url : string)
| InPage (target : option string)     (** the element a fragment designates *)
| SameOrigin (path : string).

(** An [href] resolved against the page's URL [/]. *)
Definition resolve (href : string) : Destination :=
  if String.prefix "https://" href || String.prefix "http://" href then External href
  else match href with
       | String "#"%char _ => InPage (fragment_target href)
       | String "/"%char _ => SameOrigin href
       | _ => SameOrigin ("/" ++ href)
       end.

Inductive Navigation :=
| Stay
| OpenTab (d : Destination)
| Navigate (d : Destination).

(** The activation of an anchor. *)
Definition follow (a : Anchor) : Navigation :=
  if bool_decide (a_target a = Some "_blank") then OpenTab (resolve (a_href a))
  else Navigate (resolve (a_href a)).

(** A click on a hero control: the button has no handler and no form. *)
Definition hero_click (c : HeroControl) : Navigation :=
  match c with
  | HeroButton _ => Stay
  | HeroAnchor a => follow a
  end.

(** The space-separated tokens of a [rel] attribute. *)
Definition rel_tokens (rel : string) : list string :=
  map String.string_of_list_ascii (split_on " "%char (String.list_ascii_of_string rel)).

(** ** Theorems *)

(** C26: the "Live Demo" button of every project card opens a new tab on a
    path of the site that the app does not serve: the href is the
    placeholder [YOUR_LIVE_DEMO_LINK_HERE], a relative reference. *)
Theorem demo_links_not_found :
  Forall (fun p => exists path, follow (project_demo p) = OpenTab (SameOrigin path) /\
                                path ∉ app_routes) projects.
Proof.
  forall_lit.
  all: eexists; split; [reflexivity | unfold app_routes; rewrite list_elem_of_singleton; discriminate].
Qed.

(** C27: every anchor of the page that opens a new browsing context has
    the [noopener] link type, so the opened page gets no [window.opener]. *)
Theorem blank_targets_noopener :
  Forall (fun a => a_target a = Some "_blank" ->
                   exists rel, a_rel a = Some rel /\ "noopener" ∈ rel_tokens rel) page_anchors.
Proof. forall_lit; intros Ht; try discriminate; (eexists; split; [reflexivity | cbv; elem_lit]). Qed.

(** No control of the hero leads to the projects section, although the
    page has one: "View Projects" does nothing and the other control opens
    the résumé in a new tab. *)
Theorem view_projects_inert :
  Some "projects" ∈ page_sections /\
  hero_click (HeroButton "View Projects") = Stay /\
  Forall (fun c => hero_click c <> Navigate (InPage (Some "projects")) /\
                   hero_click c <> OpenTab (InPage (Some "projects"))) hero_controls.
Proof. split; [cbv; elem_lit|]. split; [reflexivity|]. forall_lit; split; discriminate. Qed.

(** The profile icons (hero and contact) and the projects' GitHub
    buttons all lead to an absolute [https:] URL outside the site; the icons
    replace the portfolio in the current tab. *)
Theorem profile_links_external :
  Forall (fun a => follow a = Navigate (External (a_href a)) /\ String.prefix "https://" (a_href a) = true)
         (hero_socials ++ contact_socials) /\
  Forall (fun p => follow (project_github p) = OpenTab (External (a_href (project_github p)))) projects.
Proof. split; forall_lit; try split; reflexivity. Qed.

End Links.
