(* ===== verification/Footer.v ===== *)
(** * The footer (page.tsx 1082-1085)

    [<p>&copy; {new Date().getFullYear()} Ken Tuei. All Rights Reserved.</p>]
    renders the year the clock gives as decimal text: React converts the
    number child with [String(n)], which for an integer is its decimal
    digits, without leading zeros, after a [-] for a negative year.
    [decimal] prints a natural number by well-founded recursion on its
    value (Equations, with the inspect pattern), [js_int_to_string] adds
    the sign, and [footer_text] is the paragraph's text.  The year is
    whatever the visitor's clock says, so [footer_text] takes it as an
    argument.  The reader [parse_int] inverts the printer.  [©] is two
    bytes in a Rocq string, one UTF-16 code unit in JavaScript. *)

From S2P Require Import Prelude.
From Stdlib Require Import Ascii.
From Equations Require Import Equations.

Module Footer.

Definition digit_char (d : N) : ascii := ascii_of_N (48 + d).

Definition inspect {A} (a : A) : {b | a = b} := exist _ a eq_refl.

(** The decimal digits of [n], most significant first. *)
#[tactic="idtac"] Equations? decimal (n : N) : string by wf (N.to_nat n) lt :=
  decimal n with inspect (N.ltb n 10) := {
    | exist _ true _ => String (digit_char n) EmptyString;
    | exist _ false H => decimal (N.div n 10) ++ String (digit_char (N.modulo n 10)) EmptyString }.
Proof.
  apply N.ltb_ge in H. pose proof (N.div_lt n 10 ltac:(lia) ltac:(lia)). lia.
Qed.

(** [String(n)] for an integer [n]. *)
Definition js_int_to_string (z : Z) : string :=
  if Z.ltb z 0 then "-" ++ decimal (Z.to_N (- z)) else decimal (Z.to_N z).

(** The text of the footer's paragraph for the clock's year. *)
Definition footer_text (year : Z) : string :=
  "© " ++ js_int_to_string year ++ " Ken Tuei. All Rights Reserved.".

(** Reading decimal text back: [None] for anything else. *)
Definition digit_value (c : ascii) : option N :=
  let v := N_of_ascii c in if (48 <=? v)%N && (v <? 58)%N then Some (v - 48)%N else None.

Fixpoint parse_nat_acc (acc : N) (s : string) : option N :=
  match s with
  | EmptyString => Some acc
  | String c s' => match digit_value c with
                   | Some d => parse_nat_acc (10 * acc + d)%N s'
                   | None => None
                   end
  end.

Definition parse_nat (s : string) : option N :=
  match s with EmptyString => None | _ => parse_nat_acc 0 s end.

Definition parse_int (s : string) : option Z :=
  match s with
  | String "-"%char s' => (fun n => Z.opp (Z.of_N n)) <$> parse_nat s'
  | _ => Z.of_N <$> parse_nat s
  end.

(** ** Lemmas *)

Lemma string_length_app (s t : string) : String.length (s ++ t) = String.length s + String.length t.
Proof. induction s as [|c s IH]; simpl; [done | by rewrite IH]. Qed.

Lemma parse_nat_acc_app acc s t :
  parse_nat_acc acc (s ++ t) = parse_nat_acc acc s ≫= fun a => parse_nat_acc a t.
Proof.
  revert acc. induction s as [|c s IH]; intros acc; simpl; [done|].
  destruct (digit_value c); [apply IH | done].
Qed.

Lemma digit_value_char d : (d < 10)%N -> digit_value (digit_char d) = Some d.
Proof.
  intros Hd. unfold digit_value, digit_char. rewrite N_ascii_embedding by lia.
  replace ((48 <=? 48 + d)%N && (48 + d <? 58)%N) with true by (symmetry; apply andb_true_iff; split; [apply N.leb_le | apply N.ltb_lt]; lia).
  f_equal. lia.
Qed.

Lemma decimal_small n : (n < 10)%N -> decimal n = String (digit_char n) EmptyString.
Proof.
  funelim (decimal n); intros Hn; [done|].
  pose proof (proj1 (N.ltb_ge n 10) ltac:(assumption)). lia.
Qed.

Lemma decimal_large n :
  (10 <= n)%N -> decimal n = decimal (n / 10) ++ String (digit_char (n mod 10)) EmptyString.
Proof.
  funelim (decimal n); intros Hn; [|done].
  pose proof (proj1 (N.ltb_lt n 10) ltac:(assumption)). lia.
Qed.

(** Reading the digits of [n] after [acc] gives [acc] shifted by them. *)
Lemma parse_decimal acc n :
  parse_nat_acc acc (decimal n) = Some (acc * 10 ^ N.of_nat (String.length (decimal n)) + n)%N.
Proof.
  revert acc. induction n as [n IH] using (induction_ltof1 N N.to_nat); intros acc.
  destruct (N.lt_ge_cases n 10) as [Hn|Hn].
  - rewrite decimal_small by done. simpl. rewrite digit_value_char by done. f_equal. lia.
  - rewrite decimal_large by done. rewrite parse_nat_acc_app, IH; [|unfold ltof; pose proof (N.div_lt n 10); lia].
    simpl. rewrite digit_value_char by (apply N.mod_lt; lia). f_equal.
    rewrite string_length_app, Nat.add_comm. simpl. rewrite Nat2N.inj_succ, N.pow_succ_r'.
    pose proof (N.div_mod n 10). lia.
Qed.

Lemma decimal_nonempty n : decimal n <> EmptyString.
Proof.
  destruct (N.lt_ge_cases n 10) as [Hn|Hn]; [by rewrite decimal_small|].
  rewrite decimal_large by done. by destruct (decimal (n / 10)).
Qed.

(** The first character of a printed number is a digit. *)
Lemma decimal_head n : exists d s, (d < 10)%N /\ decimal n = String (digit_char d) s.
Proof.
  induction n as [n IH] using (induction_ltof1 N N.to_nat).
  destruct (N.lt_ge_cases n 10) as [Hn|Hn]; [exists n, EmptyString; by rewrite decimal_small|].
  destruct (IH (n / 10)%N) as (d & s & Hd & Hs); [unfold ltof; pose proof (N.div_lt n 10); lia|].
  rewrite decimal_large, Hs by done. by exists d, (s ++ String (digit_char (n mod 10)) EmptyString).
Qed.

Lemma parse_nat_decimal n : parse_nat (decimal n) = Some n.
Proof.
  unfold parse_nat. pose proof (decimal_nonempty n). pose proof (parse_decimal 0 n) as Hp.
  destruct (decimal n) as [|c s]; [done|]. cbv iota. rewrite Hp; f_equal; lia.
Qed.

(** [parse_int] inverts [js_int_to_string]: the printer loses nothing of
    the integer, negative ones included, so the paragraph names the
    clock's year exactly, whatever year that is. *)
Lemma js_int_to_string_parse (year : Z) : parse_int (js_int_to_string year) = Some year.
Proof.
  unfold js_int_to_string. destruct (Z.ltb_spec year 0) as [Hy|Hy].
  - change (parse_int ("-" ++ decimal (Z.to_N (- year)))) with ((fun n => Z.opp (Z.of_N n)) <$> parse_nat (decimal (Z.to_N (- year)))).
    rewrite parse_nat_decimal. simpl. f_equal. lia.
  - destruct (decimal_head (Z.to_N year)) as (d & s & Hd & Hs).
    assert (Hp : parse_int (decimal (Z.to_N year)) = Z.of_N <$> parse_nat (decimal (Z.to_N year))).
    { rewrite Hs. assert (d = 0 \/ d = 1 \/ d = 2 \/ d = 3 \/ d = 4 \/ d = 5 \/ d = 6 \/ d = 7 \/ d = 8 \/ d = 9)%N
        as Hd' by lia.
      destruct_or! Hd'; subst d; reflexivity. }
    rewrite Hp, parse_nat_decimal. simpl. f_equal. lia.
Qed.

End Footer.
