(* ===== verification/Document.v ===== *)
(** * The document: the root layout around the page (layout.tsx; page.tsx 172-178, 251-258, 323-329,
      366-372, 399-405, 457-653, 656-662, 801-807, 963-969, 1013-1077, 1083-1085)

    [RootLayout] of [src/app/layout.tsx] wraps the page in
    [<html lang="en"><body className=...>]; [metadata] is its exported
    title and description.  [page_main] is the [<main>] element of [App] as
    an element tree ([Node]): the navigation bar with its anchors, every
    section with its [id] and heading, the skills grid and the experience
    list (static markup, transcribed item by item), the form's labels and
    controls, the text of the hero, about and services sections and the
    contact details, and the footer.  The page's [className]s are left out,
    and so are wrapper [div]s whose only attribute is a class; icons are
    elements named after their component; the pictures, links and cards
    are modelled in [Images], [Links] and [Modal], and the mobile dropdown
    repeats the desktop anchors ([Navbar]).  The
    theorems read the document's [id]s, the [htmlFor] of its labels and the
    fragment targets of the navigation bar from the tree. *)

From S2P Require Import Prelude ConstraintValidation ContactForm Navbar.
Import ConstraintValidation ContactForm Navbar.

Module Document.

(** [export const metadata = { title, description }] *)
Record Metadata := {
  title : string;
  description : string
}.

Definition metadata : Metadata :=
  {| title := "Ken Tuei Portfolio"; description := "Portfolio of Ken Kipkirui Tuei" |}.

#[warnings="-register-all"]
Inductive Node :=
| Element (tag : string) (attrs : list (string * string)) (children : list Node)
| Text (s : string).

(** [RootLayout({ children })] *)
Definition RootLayout (children : list Node) : Node :=
  Element "html" [("lang", "en")]
    [Element "body" [("className", "bg-white text-gray-900 dark:bg-gray-900 dark:text-white")] children].

(** ** The skills grid and the experience list *)

Record Skill := {
  badge : string;        (** the text of the coloured tile (HTML5: "5" and a corner "H") *)
  skill_name : string;
  skill_kind : string
}.

Definition skill_groups : list (string * list Skill) := [
  ("Languages", [
    {| badge := "5H"; skill_name := "HTML5"; skill_kind := "Markup Language" |};
    {| badge := "JS"; skill_name := "JavaScript"; skill_kind := "Programming Language" |};
    {| badge := "Py"; skill_name := "Python"; skill_kind := "Programming Language" |};
    {| badge := "SQL"; skill_name := "SQL"; skill_kind := "Database Language" |}]);
  ("Frameworks & Libraries", [
    {| badge := "FL"; skill_name := "Flask"; skill_kind := "Python Web Framework" |};
    {| badge := "R"; skill_name := "React"; skill_kind := "JavaScript Library" |};
    {| badge := "SA"; skill_name := "SQLAlchemy"; skill_kind := "Python SQL Toolkit" |};
    {| badge := "A"; skill_name := "Angular"; skill_kind := "TypeScript Framework" |}]);
  ("Tools & Technologies", [
    {| badge := "Git"; skill_name := "Git"; skill_kind := "Version Control" |};
    {| badge := "TW"; skill_name := "Tailwind CSS"; skill_kind := "CSS Framework" |};
    {| badge := "IBM"; skill_name := "IBM"; skill_kind := "Cloud Platform" |};
    {| badge := "CSS"; skill_name := "CSS3"; skill_kind := "Styling Language" |}])
].

Record Job := {
  job_title : string;
  job_place : string;
  job_period : string;
  job_duties : list string
}.

Definition experiences : list Job := [
  {| job_title := "Freelance Web Developer"; job_place := "Nairobi, Kenya"; job_period := "Feb 2024 - Dec 2024";
     job_duties := [
       "Worked on various client projects, building and maintaining web applications tailored to client requirements";
       "Developed responsive user interfaces using React and Tailwind CSS";
       "Ensured timely delivery of features while maintaining code quality and usability standards"] |};
  {| job_title := "IT Attaché"; job_place := "National Health Insurance Fund (NHIF)"; job_period := "Jan 2024 - Dec 2024";
     job_duties := [
       "Assisted in troubleshooting and resolving hardware, software, and network issues across NHIF offices";
       "Participated in collecting, cleaning, and organizing healthcare data for analysis and reporting";
       "Assisted in generating periodic reports"] |};
  {| job_title := "Guest & Staff"; job_place := "Ministry of Education (Kenya Music Festival)"; job_period := "2023 - 2024";
     job_duties := [
       "Attended the 97th Kenya Music Festival (National Level) and contributed to activities celebrating music, arts, and culture";
       "Participated in the 2nd Kenya Music Festival International Conference, engaging with stakeholders on the role of creative industries in sustainable development";
       "Awarded a Certificate of Appreciation and a Certificate of Participation for active involvement and contribution"] |}
].

Definition skill_node (sk : Skill) : Node :=
  Element "div" [] [Element "div" [] [Text (badge sk)];
                    Element "div" [] [Element "span" [] [Text (skill_name sk)]; Element "p" [] [Text (skill_kind sk)]]].

Definition group_node (g : string * list Skill) : Node :=
  Element "div" [] [Element "h3" [] [Text g.1]; Element "div" [] (map skill_node g.2)].

Definition job_node (j : Job) : Node :=
  Element "div" [] [
    Element "div" [] [Element "div" [] [Element "h3" [] [Text (job_title j)]; Element "p" [] [Text (job_place j)]];
                      Element "span" [] [Text (job_period j)]];
    Element "ul" [] (map (fun d => Element "li" [] [Text d]) (job_duties j))].

(** ** The text of the hero, about, services and contact sections

    Inline [<span>]s are flattened into their text; JSX joins the lines of
    a text with single spaces and [{" "}] is a space. *)

Definition hero_paragraphs : list string := [
  "I hold a degree in Software Engineering and I'm passionate about Software Development, Cloud Computing, and Web Technologies.";
  "I'm also a certified IBM Cloud Practitioner."].

Definition about_paragraphs : list string := [
  "Hello! I'm Ken - a Full-Stack Web Developer and IT Professional passionate about building functional and visually appealing web applications. I specialize in integrating modern web technologies to create data-driven solutions.";
  "Proficient in JavaScript (React.js, Angular), Python (Flask), SQL, and cloud technologies. I also work with tools like modern frameworks and development best practices.";
  "I'm a certified IBM Cloud Practitioner and currently open to exciting new opportunities - feel free to reach out!"].

(** A service card: its icon, title and description. *)
Record Service := {
  service_icon : string;
  service_title : string;
  service_text : string
}.

Definition services : list Service := [
  {| service_icon := "Monitor"; service_title := "Web Development";
     service_text := "I build responsive and high-performance websites and web applications using modern technologies." |};
  {| service_icon := "Smartphone"; service_title := "Mobile App Development";
     service_text := "I create cross-platform mobile applications that work seamlessly on both iOS and Android devices." |};
  {| service_icon := "Figma"; service_title := "Full-Stack Development";
     service_text := "I build comprehensive, end-to-end web applications, handling both the front-end user interface and the back-end server logic and databases." |}].

(** The contact details: icon, heading and value. *)
Definition contact_details : list (string * string * string) := [
  ("MapPin", "Location", "Nairobi, Kenya");
  ("Mail", "Email", "kentuei05@gmail.com");
  ("Phone", "Phone", "+254115728094")].

Definition service_node (sv : Service) : Node :=
  Element "div" [] [Element "div" [] [Element (service_icon sv) [] []];
                    Element "h3" [] [Text (service_title sv)]; Element "p" [] [Text (service_text sv)]].

Definition detail_node (d : string * string * string) : Node :=
  Element "div" [] [Element "div" [] [Element d.1.1 [] []];
                    Element "div" [] [Element "h4" [] [Text d.1.2]; Element "p" [] [Text d.2]]].

Definition paragraph (t : string) : Node := Element "p" [] [Text t].

(** ** The page *)

(** A [<section>] with its [id], if any, and its [<h2>] heading. *)
Definition section_node (id : option string) (heading : string) (body : list Node) : Node :=
  Element "section" (default [] ((fun i => [("id", i)]) <$> id)) (Element "h2" [] [Text heading] :: body).

Definition form_labels : list string := ["Your Name"; "Your Email"; "Subject"; "Your Message"].

(** [<label htmlFor=...>] and its [<input>] or [<textarea>]. *)
Definition control_node (inp : FormInput) (lbl : string) : Node :=
  Element "div" [] [
    Element "label" [("htmlFor", input_id inp)] [Text lbl];
    if bool_decide (input_type inp = "textarea")
    then Element "textarea" [("id", input_id inp); ("name", input_name inp)] []
    else Element "input" [("type", input_type inp); ("id", input_id inp); ("name", input_name inp)] []].

Definition form_node : Node :=
  Element "form" [] (zip_with control_node form_inputs form_labels ++ [Element "button" [("type", "submit")] []])%list.

Definition nav_node : Node :=
  Element "nav" [] [Element "h1" [] [Text "KT"];
                    Element "div" [] (map (fun l => Element "a" [("href", href l)] [Text (label l)]) desktop_links)].

Definition page_main : Node :=
  Element "main" [] [
    nav_node;
    Element "section" [] [Element "h1" [] [Text "Hi, I'm Ken Tuei"];
                          Element "div" [] (map paragraph hero_paragraphs);
                          Element "h2" [] [Text "KEN TUEI"]; paragraph "Full Stack Web Developer"];
    section_node (Some "about") "About Me" (map paragraph about_paragraphs);
    section_node (Some "services") "My Services" (map service_node services);
    section_node (Some "work-process") "My Work Process" [];
    section_node (Some "skills") "Skills & Technologies" (map group_node skill_groups);
    section_node (Some "experience") "Professional Experience" (map job_node experiences);
    section_node (Some "projects") "Featured Projects" [];
    section_node (Some "certifications") "Certifications" [];
    section_node (Some "contact") "Get In Touch" [Element "div" [] (map detail_node contact_details); form_node];
    Element "footer" [] []].

Definition document : Node := RootLayout [page_main].

(** ** Reading the tree *)

Fixpoint elements (n : Node) : list (string * list (string * string)) :=
  match n with
  | Text _ => []
  | Element t a cs => (t, a) :: concat (map elements cs)
  end.

Definition attr (k : string) (a : list (string * string)) : option string :=
  snd <$> head (filter (fun p => p.1 = k) a).

Definition document_ids (d : Node) : list string := omap (fun e => attr "id" e.2) (elements d).

Definition label_targets (d : Node) : list string :=
  omap (fun e => if bool_decide (e.1 = "label") then attr "htmlFor" e.2 else None) (elements d).

Definition control_ids (d : Node) : list string :=
  omap (fun e => if bool_decide (e.1 = "input" \/ e.1 = "textarea") then attr "id" e.2 else None) (elements d).

(** ** Theorems *)

(** C31: the rendered document is well formed where the page relies on
    it: it is in English, its element ids are pairwise distinct, every
    label names a control of the form, and every anchor of the navigation
    bar designates an element of the document. *)
Theorem document_well_formed :
  head (elements document) = Some ("html", [("lang", "en")]) /\
  NoDup (document_ids document) /\
  Forall (fun f => f ∈ control_ids document) (label_targets document) /\
  Forall (fun l => exists id, fragment_target (href l) = Some id /\ id ∈ document_ids document) desktop_links.
Proof.
  split_and!; [reflexivity | apply (bool_decide_unpack _); vm_compute; reflexivity
              | apply (bool_decide_unpack _); vm_compute; reflexivity |].
  forall_lit; (eexists; split; [reflexivity | apply (bool_decide_unpack _); vm_compute; reflexivity]).
Qed.

End Document.
