(* ===== verification/App.v ===== *)
(** * The page as a whole (page.tsx 25-70 and the JSX it returns)

    [AppState] puts the slices of [App] side by side: the contact form, the
    lightbox, the active work-process step, the navigation state, and the
    children the mount effect added to [document.body].  [app_step] is the
    step relation of the page: the mount effect (page.tsx 60-70) creates a
    [script] element for the e-mail client's CDN URL and appends it, its
    cleanup removes it with [removeChild] (which throws when the element is
    no longer a child: [cleanup_effect] returns [None]); the element's
    [onload] writes [emailJsLoaded]; every other event goes to the slice
    whose section renders it.  Invariants of all reachable states are proved
    by rule induction over [star app_step]. *)

From S2P Require Import Prelude Dom Modal WorkProcess ConstraintValidation ContactForm Navbar.
Import Modal WorkProcess ConstraintValidation ContactForm Navbar.

Module App.

Definition emailjs_cdn : string := "https://cdn.jsdelivr.net/npm/@emailjs/browser@4/dist/email.min.js".

(** The elements the effect appended to [document.body], by node id, and
    the element the cleanup closure of the current effect run holds. *)
Record ScriptState := {
  body : list nat;
  effect_script : option nat;
  next_node : nat
}.

Definition script_init : ScriptState := {| body := []; effect_script := None; next_node := 0 |}.

(** [document.createElement("script")], [script.src = emailjs_cdn],
    [document.body.appendChild(script)]. *)
Definition mount_effect (sc : ScriptState) : ScriptState :=
  let script := next_node sc in
  {| body := body sc ++ [script]; effect_script := Some script; next_node := S script |}.

(** [() => { document.body.removeChild(script); }] *)
Definition cleanup_effect (sc : ScriptState) : option ScriptState :=
  match effect_script sc with
  | Some script =>
      if bool_decide (script ∈ body sc)
      then Some {| body := filter (fun x => x <> script) (body sc); effect_script := None;
                   next_node := next_node sc |}
      else None
  | None => Some sc
  end.

Record AppState := {
  form : FormState;
  modal : ModalState;
  activeStep : Z;
  nav : NavState;
  scripts : ScriptState;
  mounted : bool
}.

Definition app_init : AppState :=
  {| form := form_init; modal := modal_init; activeStep := activeStep_init; nav := nav_init;
     scripts := script_init; mounted := false |}.

Definition with_form (s : AppState) (f : FormState) : AppState :=
  {| form := f; modal := modal s; activeStep := activeStep s; nav := nav s; scripts := scripts s; mounted := mounted s |}.
Definition with_modal (s : AppState) (m : ModalState) : AppState :=
  {| form := form s; modal := m; activeStep := activeStep s; nav := nav s; scripts := scripts s; mounted := mounted s |}.
Definition with_step (s : AppState) (a : Z) : AppState :=
  {| form := form s; modal := modal s; activeStep := a; nav := nav s; scripts := scripts s; mounted := mounted s |}.
Definition with_nav (s : AppState) (n : NavState) : AppState :=
  {| form := form s; modal := modal s; activeStep := activeStep s; nav := n; scripts := scripts s; mounted := mounted s |}.
Definition with_scripts (s : AppState) (sc : ScriptState) (m : bool) : AppState :=
  {| form := form s; modal := modal s; activeStep := activeStep s; nav := nav s; scripts := sc; mounted := m |}.

(** [script.onload = () => setEmailJsLoaded(true)], run when the script
    element [el] has loaded.  Every element the effect created can fire it,
    also one its cleanup has already removed: a removed external script
    still runs and fires [load].  On an unmounted page the setter does
    nothing. *)
Definition script_onload (s : AppState) (el : nat) : option AppState :=
  if bool_decide (el < next_node (scripts s))
  then Some (if mounted s then with_form s (form_handle (form s) ScriptOnload) else s)
  else None.

Inductive app_step : AppState -> AppState -> Prop :=
| step_mount s :
    mounted s = false -> app_step s (with_scripts s (mount_effect (scripts s)) true)
| step_unmount s sc :
    mounted s = true -> cleanup_effect (scripts s) = Some sc -> app_step s (with_scripts s sc false)
| step_script_load s el s' :
    script_onload s el = Some s' -> app_step s s'
| step_form s e :
    mounted s = true -> e <> ScriptOnload -> app_step s (with_form s (form_handle (form s) e))
| step_modal s e :
    mounted s = true -> app_step s (with_modal s (modal_handle (modal s) e))
| step_tab s index :
    mounted s = true -> app_step s (with_step s (tab_onClick (activeStep s) index))
| step_nav s e :
    mounted s = true -> app_step s (with_nav s (nav_handle (nav s) e)).

Definition reachable (s : AppState) : Prop := star app_step app_init s.

(** The mount effect's elements: exactly its own script while mounted,
    none otherwise, with a fresh id. *)
Definition script_inv (sc : ScriptState) (m : bool) : Prop :=
  match effect_script sc with
  | Some x => m = true /\ body sc = [x] /\ x < next_node sc
  | None => m = false /\ body sc = []
  end.

Definition app_inv (s : AppState) : Prop :=
  form_inv (form s) /\ modal_inv (modal s) /\ step_inv (activeStep s) /\
  script_inv (scripts s) (mounted s) /\ (emailJsLoaded (form s) = true -> 0 < next_node (scripts s)).

(** ** Lemmas *)

Lemma form_handle_keeps_loaded f e :
  e <> ScriptOnload -> emailJsLoaded (form_handle f e) = emailJsLoaded f.
Proof.
  intros He. destruct e as [index value| |i o|]; simpl; [| |  | done].
  - by destruct (form_inputs !! index).
  - unfold submit_click. destruct (submit_disabled f); [done|]. destruct (form_valid f); [|done].
    unfold handleSubmit. by destruct (emailJsLoaded f) eqn:E.
  - destruct (pending f !! i) as [r|] eqn:Hr; [|by rewrite settle_none].
    by destruct o; [rewrite (settle_fulfilled _ _ r) by done | rewrite (settle_rejected _ _ r) by done].
Qed.

Lemma script_inv_mount sc : script_inv sc false -> script_inv (mount_effect sc) true.
Proof.
  unfold script_inv. destruct (effect_script sc) as [x|]; [by intros [? _]|].
  intros [_ Hb]. simpl. rewrite Hb. split_and!; [done | done | lia].
Qed.

Lemma script_inv_cleanup sc sc' : script_inv sc true -> cleanup_effect sc = Some sc' -> script_inv sc' false.
Proof.
  unfold script_inv, cleanup_effect. destruct (effect_script sc) as [x|]; [|by intros [? _]].
  intros (_ & Hb & _). rewrite Hb. rewrite bool_decide_true by set_solver.
  intros [= <-]. split; [done|]. simpl. rewrite filter_cons_False; [reflexivity | intros H; by apply H].
Qed.

Lemma cleanup_next_node sc sc' : cleanup_effect sc = Some sc' -> next_node sc' = next_node sc.
Proof.
  unfold cleanup_effect. destruct (effect_script sc); [|by intros [= <-]].
  case_bool_decide; [by intros [= <-] | done].
Qed.

Lemma script_onload_some s el s' :
  script_onload s el = Some s' ->
  el < next_node (scripts s) /\ s' = if mounted s then with_form s (form_handle (form s) ScriptOnload) else s.
Proof. unfold script_onload. case_bool_decide; [|done]. by intros [= <-]. Qed.

Lemma app_inv_init : app_inv app_init.
Proof.
  split_and!; [apply form_inv_init | apply modal_inv_init | cbv; split; discriminate | by split | discriminate].
Qed.

Lemma app_inv_step s s' : app_inv s -> app_step s s' -> app_inv s'.
Proof.
  intros (Hf & Hm & Ht & Hsc & Hl) Hstep. destruct Hstep as [s Hmo|s sc Hmo Hc|s el s' Hload|s e Hmo He|s e Hmo|s i Hmo|s e Hmo];
    unfold app_inv; simpl.
  - rewrite Hmo in Hsc. split_and!; auto using script_inv_mount. intros _. simpl. lia.
  - rewrite Hmo in Hsc. erewrite cleanup_next_node by done. split_and!; eauto using script_inv_cleanup.
  - apply script_onload_some in Hload as [Hel ->]. destruct (mounted s) eqn:Hmo; simpl; rewrite ?Hmo.
    + split_and!; auto using form_inv_handle. intros _. lia.
    + by split_and!.
  - rewrite form_handle_keeps_loaded by done. split_and!; auto using form_inv_handle.
  - split_and!; auto using modal_inv_handle.
  - split_and!; auto using step_inv_handle.
  - split_and!; auto.
Qed.

Lemma reachable_app_inv s : reachable s -> app_inv s.
Proof. apply star_inv; [apply app_inv_step | apply app_inv_init]. Qed.

Definition mounted_page : AppState := with_scripts app_init (mount_effect script_init) true.

Lemma mounted_page_reachable : reachable mounted_page.
Proof. apply star_one. by apply step_mount. Qed.

(** A disabled button in a reachable state means exactly one send in flight. *)
Lemma disabled_single_pending f :
  form_inv f -> submit_disabled f = true -> exists r, pending f = [r].
Proof.
  intros (_ & _ & _ & Hlen & Hst) Hd. unfold submit_disabled in Hd. apply bool_decide_eq_true in Hd.
  destruct (pending f) as [|r [|r' rs]]; [by apply Hst in Hd | by exists r | simpl in Hlen; lia].
Qed.

(** Settling the only send in flight, either way, empties [pending] and
    leaves [status] other than ["sending"]. *)
Lemma settle_only_pending f r o :
  pending f = [r] -> submit_disabled (settle f 0 o) = false /\ pending (settle f 0 o) = [].
Proof.
  intros Hp. assert (Hr : pending f !! 0 = Some r) by (by rewrite Hp).
  destruct o as [st tx|err]; [rewrite (settle_fulfilled _ _ r) by done | rewrite (settle_rejected _ _ r) by done];
    unfold submit_disabled; simpl; rewrite Hp; by split.
Qed.

(** Form events other than the script's [onload], in order, on a mounted page. *)
Lemma form_events_reachable s es :
  reachable s -> mounted s = true -> Forall (fun e => e <> ScriptOnload) es ->
  reachable (with_form s (foldl form_handle (form s) es)).
Proof.
  intros Hr Hm Hes. revert s Hr Hm. induction Hes as [|e es He Hes IH]; intros s Hr Hm; [by destruct s|].
  apply (IH (with_form s (form_handle (form s) e))); [|done]. eapply star_right; [exact Hr|]. by apply step_form.
Qed.

(** The page after the client's script has loaded, and after the visitor
    filled in the form and pressed the button. *)
Definition loaded_page : AppState := with_form mounted_page (form_handle (form mounted_page) ScriptOnload).

Definition visitor_events : list FormEvent :=
  [InputChange 0 "Ada"; InputChange 1 "ada@example.com"; InputChange 2 "Hello"; InputChange 3 "A message";
   SubmitClick].

Definition sending_page : AppState := with_form loaded_page (foldl form_handle (form loaded_page) visitor_events).

(** ** Theorems *)

(** C13: In every reachable state of the page, the e-mail client's script is in
    [document.body] exactly once while the page is mounted (remounts never
    duplicate it) and not at all after the cleanup. *)
Theorem reachable_script_once s :
  reachable s ->
  (mounted s = true -> exists x, body (scripts s) = [x] /\ effect_script (scripts s) = Some x) /\
  (mounted s = false -> body (scripts s) = []).
Proof.
  intros Hr. destruct (reachable_app_inv s Hr) as (_ & _ & _ & Hsc & _). unfold script_inv in Hsc.
  destruct (effect_script (scripts s)) as [x|].
  - destruct Hsc as (Hm & Hb & _). split; [intros _; by exists x | intros Hf; congruence].
  - destruct Hsc as [Hm Hb]. split; [intros Ht; congruence | done].
Qed.

Lemma reachable_script_once_witness :
  body (scripts mounted_page) = [0].
Proof.
  destruct (reachable_script_once mounted_page mounted_page_reachable) as [H _].
  destruct (H eq_refl) as (x & Hb & He). simpl in He. injection He as <-. exact Hb.
Defined.

(** C14: The cleanup of a reachable mounted page never throws: the script it
    removes is still a child of [document.body], and removing it leaves the
    body as it was before the mount. *)
Theorem cleanup_never_throws s :
  reachable s -> mounted s = true -> exists sc, cleanup_effect (scripts s) = Some sc /\ body sc = [].
Proof.
  intros Hr Hm. destruct (reachable_app_inv s Hr) as (_ & _ & _ & Hsc & _).
  unfold script_inv, cleanup_effect in *. destruct (effect_script (scripts s)) as [x|]; [|by destruct Hsc; congruence].
  destruct Hsc as (_ & Hb & _). rewrite Hb, bool_decide_true by set_solver.
  eexists; split; [reflexivity|]. simpl. rewrite filter_cons_False; [reflexivity | intros H; by apply H].
Qed.

Lemma cleanup_never_throws_witness : is_Some (cleanup_effect (scripts mounted_page)).
Proof. destruct (cleanup_never_throws mounted_page mounted_page_reachable eq_refl) as (sc & H & _). by exists sc. Defined.

(** C22: liveness of the submit button.  In a reachable mounted state
    whose button is disabled, whatever the e-mail service answers, the step
    that settles the send re-enables the button and leaves nothing in
    flight: the button is never disabled for good. *)
Theorem send_settles_reenables s o :
  reachable s -> mounted s = true -> submit_disabled (form s) = true ->
  exists s', app_step s s' /\ form s' = settle (form s) 0 o /\
             submit_disabled (form s') = false /\ pending (form s') = [].
Proof.
  intros Hr Hm Hd. destruct (reachable_app_inv s Hr) as (Hf & _).
  destruct (disabled_single_pending _ Hf Hd) as [r Hp].
  exists (with_form s (form_handle (form s) (Settle 0 o))). split; [by apply step_form|].
  split; [done|]. apply (settle_only_pending _ r), Hp.
Qed.

Lemma sending_page_reachable : reachable sending_page.
Proof.
  apply form_events_reachable; [|done|forall_lit; discriminate].
  apply (star_right _ _ mounted_page); [apply mounted_page_reachable|].
  by apply (step_script_load _ 0).
Qed.

Lemma send_settles_reenables_witness :
  exists s', app_step sending_page s' /\ submit_disabled (form s') = false.
Proof.
  destruct (send_settles_reenables sending_page (Rejected "network") sending_page_reachable eq_refl eq_refl)
    as (s' & Hs & _ & Hd & _).
  exists s'. split; [exact Hs | exact Hd].
Defined.

End App.
